(** * memu_memory: the memory-access layer of the memU.so plugin

    A shallow embedding of [src/__init__.py].  The plugin keeps one
    module-level client handle ([memu_client]), builds it lazily from the
    plugin configuration, and offers three entry points to the host:
    the prompt-injection hook [inject_relevant_memories], the behaviour
    [memorize_conversation] and the tool [recall_memory].

    Python effects are modelled by a small state-and-exception monad [Py]:
    the state holds the module globals, the world of the remote service and
    two ghost journals (the calls made to the memu SDK and the log records
    emitted).  The memu SDK itself is not part of the repository: it is an
    interface ([Memu.SDK]) whose methods answer from the state of the world,
    either with a value or with a raised exception. *)

From Stdlib Require Import String Ascii List ZArith Bool Arith DecimalString Lia.
Import ListNotations.

Local Open Scope list_scope.
Local Open Scope string_scope.

(** ** Python values *)

(** An instance of [Exception]: what [type(e).__name__] and [str(e)] give.
    Only instances of [Exception] are modelled, which is the class every
    [except Exception] clause of the source catches. *)
Record PyException : Type := mkException {
  type_name : string;
  exc_str : string
}.

Definition ConnectionError (msg : string) : PyException :=
  mkException "ConnectionError" msg.

Definition RuntimeError (msg : string) : PyException :=
  mkException "RuntimeError" msg.

(** How a call ends: with a value, or with an exception raised. *)
Inductive Outcome (A : Type) : Type :=
| Returned (a : A)
| Raised (e : PyException).

Arguments Returned {A} a.
Arguments Raised {A} e.

(** The line feed, written [\n] in the source. *)
Definition LF : string := String (ascii_of_nat 10) EmptyString.

(** [sep.join(parts)] *)
Definition join (sep : string) (parts : list string) : string :=
  String.concat sep parts.

(** [str(n)] for a non-negative integer, as an f-string prints it. *)
Definition str_of_nat (n : nat) : string :=
  NilEmpty.string_of_uint (Nat.to_uint n).

(** [not s] for a string: only the empty string is falsy. *)
Definition not_str (s : string) : bool :=
  match s with
  | EmptyString => true
  | String _ _ => false
  end.

(** [l[-n:]]: the last [n] elements, the whole list when it is shorter. *)
Definition last_n {A : Type} (n : nat) (l : list A) : list A :=
  skipn (length l - n) l.

(** [enumerate(l)] *)
Definition enumerate {A : Type} (l : list A) : list (nat * A) :=
  combine (seq 0 (length l)) l.

(** A dict literal with string keys and values, in the order written. *)
Definition PyDict : Type := list (string * string).

(** ** Data of the plugin and of its collaborators *)

(** [class MemUConfig(ConfigBase)] *)
Record MemUConfig : Type := mkConfig {
  MEMU_API_KEY : string;
  BASE_URL : string;
  AGENT_ID : string;
  AGENT_NAME : string;
  RECALL_TOP_K : Z
}.

(** The field defaults of [MemUConfig]. *)
Definition default_config : MemUConfig :=
  mkConfig "" "https://api.memu.so" "nekro_agent" "Nekro Assistant" 3%Z.

(** One entry of the rolling message history of the host. *)
Module ChatMessage.
Record t : Type := mk { role : string; content : string }.
End ChatMessage.

(** [schemas.AgentCtx], restricted to the attributes the plugin reads. *)
Record AgentCtx : Type := mkCtx {
  from_chat_key : string;
  channel_name : string;
  message_history : list ChatMessage.t
}.

(** The records the remote service answers with. *)
Record MemoryItem : Type := mkMemory { content : string }.

Record RelatedMemoryItem : Type := mkRelated { memory : MemoryItem }.

Record RetrieveResponse : Type := mkRetrieved {
  related_memories : list RelatedMemoryItem
}.

Record MemorizeResponse : Type := mkMemorized { task_id : string }.

(** ** The memu SDK, an external collaborator *)

Module Memu.

(** The client class of [memu-py].  [World] is whatever the remote
    service and the network depend on; every method may change it and
    may raise.  A retrieval may also answer [None]. *)
Class SDK : Type := {
  World : Type;
  MemuClient : Type;
  new : string -> string -> World -> World * Outcome MemuClient;
  retrieve_related_memory_items :
    MemuClient -> string -> string -> Z ->
    World -> World * Outcome (option RetrieveResponse);
  memorize_conversation :
    MemuClient -> list PyDict -> string -> string -> string -> string ->
    World -> World * Outcome MemorizeResponse
}.

(** The journal of the calls made to the SDK, with their arguments. *)
Inductive Call : Type :=
| Construct (base_url api_key : string)
| Retrieve (query user_id : string) (top_k : Z)
| Memorize (conversation : list PyDict)
           (user_id user_name agent_id agent_name : string).

Definition is_construct (c : Call) : bool :=
  match c with Construct _ _ => true | _ => false end.

Definition is_retrieve (c : Call) : bool :=
  match c with Retrieve _ _ _ => true | _ => false end.

End Memu.

(** ** Logging *)

Inductive LogLevel : Type := INFO | WARNING | ERROR.

Record LogRecord : Type := mkLog {
  level : LogLevel;
  message : string;
  exc_info : bool
}.

Section Plugin.

Context {sdk : Memu.SDK}.

(** ** The state of the module and the monad of its functions *)

Record State : Type := mkState {
  memu_client : option Memu.MemuClient;   (* the module global *)
  config : MemUConfig;                    (* what [plugin.get_config] reads *)
  world : Memu.World;
  calls : list Memu.Call;                 (* oldest first *)
  log : list LogRecord                    (* oldest first *)
}.

Definition Py (A : Type) : Type := State -> State * Outcome A.

Definition ret {A : Type} (a : A) : Py A := fun s => (s, Returned a).

Definition raise {A : Type} (e : PyException) : Py A := fun s => (s, Raised e).

Definition bind {A B : Type} (m : Py A) (k : A -> Py B) : Py B :=
  fun s =>
    match m s with
    | (s', Returned a) => k a s'
    | (s', Raised e) => (s', Raised e)
    end.

(** [try: body / except Exception as e: handler] *)
Definition try_except {A : Type} (body : Py A) (handler : PyException -> Py A)
  : Py A :=
  fun s =>
    match body s with
    | (s', Returned a) => (s', Returned a)
    | (s', Raised e) => handler e s'
    end.

Notation "x <- m ;; k" := (bind m (fun x => k))
  (at level 61, m at next level, right associativity).
Notation "m ;; k" := (bind m (fun _ => k))
  (at level 61, right associativity).

(** [plugin.get_config(MemUConfig)] *)
Definition get_config : Py MemUConfig := fun s => (s, Returned (config s)).

(** Reading and writing the global [memu_client]. *)
Definition load_memu_client : Py (option Memu.MemuClient) :=
  fun s => (s, Returned (memu_client s)).

Definition store_memu_client (c : Memu.MemuClient) : Py unit :=
  fun s => (mkState (Some c) (config s) (world s) (calls s) (log s), Returned tt).

(** Appending to the two journals. *)
Definition logged (s : State) (r : LogRecord) : State :=
  mkState (memu_client s) (config s) (world s) (calls s) (log s ++ [r])%list.

Definition called (s : State) (c : Memu.Call) (w : Memu.World) : State :=
  mkState (memu_client s) (config s) w (calls s ++ [c])%list (log s).

Definition emit (r : LogRecord) : Py unit :=
  fun s => (logged s r, Returned tt).

Definition logger_info (msg : string) : Py unit := emit (mkLog INFO msg false).
Definition logger_warning (msg : string) : Py unit := emit (mkLog WARNING msg false).
Definition logger_error (msg : string) (exc : bool) : Py unit :=
  emit (mkLog ERROR msg exc).

(** A call into the SDK: journal it, then let the world answer. *)
Definition sdk_call {A : Type} (c : Memu.Call)
    (method : Memu.World -> Memu.World * Outcome A) : Py A :=
  fun s =>
    let (w, r) := method (world s) in
    (called s c w, r).

(** ** Client lifecycle *)

(** [async def _initialize_client_if_needed() -> None] *)
Definition _initialize_client_if_needed : Py unit :=
  client <- load_memu_client ;;
  match client with
  | Some _ => ret tt
  | None =>
      current_config <- get_config ;;
      if not_str (MEMU_API_KEY current_config) then
        logger_error
          "MemU API Key 未在插件配置中设置。请在插件设置页面输入您的 API Key。" false
      else
        logger_info "首次调用，开始初始化 MemUClient..." ;;
        try_except
          (c <- sdk_call
                  (Memu.Construct (BASE_URL current_config)
                                  (MEMU_API_KEY current_config))
                  (Memu.new (BASE_URL current_config)
                            (MEMU_API_KEY current_config)) ;;
           store_memu_client c ;;
           logger_info "MemUClient (memu.so) 初始化成功。")
          (fun e => logger_error ("MemUClient 初始化失败: " ++ exc_str e) true)
  end.

(** [memu_client.<attr>(...)]: the global is read again where the method
    is called; on [None] the attribute lookup raises [AttributeError]. *)
Definition AttributeError_None (attr : string) : PyException :=
  mkException "AttributeError"
    ("'NoneType' object has no attribute '" ++ attr ++ "'").

Definition memu_client_method {A : Type} (attr : string)
    (call : Memu.MemuClient -> Py A) : Py A :=
  client <- load_memu_client ;;
  match client with
  | Some c => call c
  | None => raise (AttributeError_None attr)
  end.

(** [not memu_client]: a client object is truthy, [None] is not. *)
Definition not_client (client : option Memu.MemuClient) : bool :=
  match client with
  | Some _ => false
  | None => true
  end.

(** ** Auto-recall: the prompt-injection hook *)

Definition injection_header : string :=
  "--- Relevant Memories Retrieved From Your Past ---".

(** [f"{msg.role}: {msg.content}"] *)
Definition history_line (msg : ChatMessage.t) : string :=
  ChatMessage.role msg ++ ": " ++ ChatMessage.content msg.

(** [query_text], from the first two statements of the guarded body. *)
Definition query_text (_ctx : AgentCtx) : string :=
  let recent_history := map history_line (last_n 4 (message_history _ctx)) in
  join LF recent_history.

(** [prompt_lines] after the loop over [related_memories]. *)
Definition prompt_lines (items : list RelatedMemoryItem) : list string :=
  fold_left
    (fun lines memory_item =>
       (lines ++ [("- " ++ content (memory memory_item))%string])%list)
    items [injection_header].

(** The body of the [try] of [inject_relevant_memories]. *)
Definition inject_guarded (current_config : MemUConfig) (_ctx : AgentCtx)
  : Py string :=
  if not_str (query_text _ctx) then ret ""
  else
    retrieved_response <-
      memu_client_method "retrieve_related_memory_items" (fun c =>
        sdk_call
          (Memu.Retrieve (query_text _ctx) (from_chat_key _ctx)
                         (RECALL_TOP_K current_config))
          (Memu.retrieve_related_memory_items c (query_text _ctx)
             (from_chat_key _ctx) (RECALL_TOP_K current_config))) ;;
    match retrieved_response with
    | None => ret ""
    | Some response =>
        match related_memories response with
        | [] => ret ""
        | _ :: _ =>
            logger_info
              ("成功为 User '" ++ channel_name _ctx ++ "' 注入了 "
               ++ str_of_nat (length (related_memories response))
               ++ " 条相关记忆。") ;;
            ret (join LF (prompt_lines (related_memories response)))
        end
    end.

(** [async def inject_relevant_memories(_ctx) -> str] *)
Definition inject_relevant_memories (_ctx : AgentCtx) : Py string :=
  _initialize_client_if_needed ;;
  current_config <- get_config ;;
  client <- load_memu_client ;;
  if not_client client || (RECALL_TOP_K current_config =? 0)%Z then ret ""
  else
    try_except
      (inject_guarded current_config _ctx)
      (fun e =>
         logger_warning ("自动检索记忆时出错: " ++ exc_str e) ;;
         ret "").

(** ** Explicitly invoked operations *)

Definition not_initialized : string :=
  "memu.so client is not initialized or failed to initialize. Please check the plugin configuration.".

(** [x if x is not None else default] *)
Definition if_not_None (x : option string) (default : string) : string :=
  match x with
  | Some v => v
  | None => default
  end.

(** The confirmation f-string of [memorize_conversation]. *)
Definition confirmation (final_agent_name : string) : string :=
  "✅ " ++ final_agent_name ++ " 已经收到指令，会把内容记下来的！".

(** [[{"role": "user", "content": conversation}]] *)
Definition structured (conversation : string) : list PyDict :=
  [[("role", "user"); ("content", conversation)]].

(** The body of the [try] of [memorize_conversation]. *)
Definition memorize_guarded (_ctx : AgentCtx) (conversation : string)
    (agent_id agent_name : option string) : Py string :=
  current_config <- get_config ;;
  let final_agent_id := if_not_None agent_id (AGENT_ID current_config) in
  let final_agent_name := if_not_None agent_name (AGENT_NAME current_config) in
  let structured_conversation := structured conversation in
  memo_response <-
    memu_client_method "memorize_conversation" (fun c =>
      sdk_call
        (Memu.Memorize structured_conversation (from_chat_key _ctx)
           (channel_name _ctx) final_agent_id final_agent_name)
        (Memu.memorize_conversation c structured_conversation
           (from_chat_key _ctx) (channel_name _ctx)
           final_agent_id final_agent_name)) ;;
  logger_info
    ("已成功提交记忆任务到 memu.so，Task ID: " ++ task_id memo_response ++ "。") ;;
  ret (confirmation final_agent_name).

(** [async def memorize_conversation(_ctx, chat_key, conversation,
    agent_id=None, agent_name=None, *args, **kwargs) -> str].  The extra
    positional and keyword arguments are accepted and never read; they are
    left out here. *)
Definition memorize_conversation (_ctx : AgentCtx)
    (chat_key conversation : string) (agent_id agent_name : option string)
  : Py string :=
  _initialize_client_if_needed ;;
  client <- load_memu_client ;;
  if not_client client then raise (ConnectionError not_initialized)
  else
    try_except
      (memorize_guarded _ctx conversation agent_id agent_name)
      (fun e =>
         logger_error ("调用 memU.so 记忆服务时出错: " ++ exc_str e) true ;;
         raise (RuntimeError
                  ("Failed to memorize conversation: "
                   ++ type_name e ++ ": " ++ exc_str e))).

Definition nothing_found : string := "（在记忆中没有找到相关信息。）".

Definition lead_in_sentence : string :=
  "根据我的回忆，以下是与您问题最相关的信息：".

(** The literal [response_text] starts from: the sentence and a line feed. *)
Definition lead_in : string := lead_in_sentence ++ LF.

(** [response_text] after the loop over [enumerate(related_memories)]. *)
Definition response_text (items : list RelatedMemoryItem) : string :=
  fold_left
    (fun text '(i, memory_item) =>
       text ++ (str_of_nat (i + 1) ++ ". "
                ++ content (memory memory_item) ++ LF))
    (enumerate items) lead_in.

(** The body of the [try] of [recall_memory]. *)
Definition recall_guarded (_ctx : AgentCtx) (query : string) : Py string :=
  retrieved_response <-
    memu_client_method "retrieve_related_memory_items" (fun c =>
      sdk_call
        (Memu.Retrieve query (from_chat_key _ctx) 3%Z)
        (Memu.retrieve_related_memory_items c query
           (from_chat_key _ctx) 3%Z)) ;;
  match retrieved_response with
  | None => ret nothing_found
  | Some response =>
      match related_memories response with
      | [] => ret nothing_found
      | _ :: _ => ret (response_text (related_memories response))
      end
  end.

(** [async def recall_memory(_ctx, query) -> str] *)
Definition recall_memory (_ctx : AgentCtx) (query : string) : Py string :=
  _initialize_client_if_needed ;;
  client <- load_memu_client ;;
  if not_client client then raise (ConnectionError not_initialized)
  else
    try_except
      (recall_guarded _ctx query)
      (fun e =>
         logger_error ("主动检索记忆时出错: " ++ exc_str e) true ;;
         raise (RuntimeError
                  ("Failed to recall memory: "
                   ++ type_name e ++ ": " ++ exc_str e))).

(** [n] successive calls of the lifecycle function. *)
Fixpoint initialize_times (n : nat) (s : State) : State :=
  match n with
  | O => s
  | S k => initialize_times k (fst (_initialize_client_if_needed s))
  end.

(** How many times the client constructor has been called. *)
Definition constructions (s : State) : nat :=
  length (filter Memu.is_construct (calls s)).

End Plugin.

(** The state in which an entry point continues after its first statement,
    [await _initialize_client_if_needed()]. *)
Definition ensured {sdk : Memu.SDK} (s : State) : State :=
  fst (_initialize_client_if_needed s).

(** The records and the call the lifecycle function leaves in the
    journals. *)
Definition key_missing_record : LogRecord :=
  mkLog ERROR
    "MemU API Key 未在插件配置中设置。请在插件设置页面输入您的 API Key。" false.

Definition starting_record : LogRecord :=
  mkLog INFO "首次调用，开始初始化 MemUClient..." false.

Definition started_record : LogRecord :=
  mkLog INFO "MemUClient (memu.so) 初始化成功。" false.

Definition construct_call (cfg : MemUConfig) : Memu.Call :=
  Memu.Construct (BASE_URL cfg) (MEMU_API_KEY cfg).

(** The retrieval the injection hook issues, and the records it logs. *)
Definition inject_retrieval (cfg : MemUConfig) (_ctx : AgentCtx) : Memu.Call :=
  Memu.Retrieve (query_text _ctx) (from_chat_key _ctx) (RECALL_TOP_K cfg).

Definition injected_record (_ctx : AgentCtx) (items : list RelatedMemoryItem)
  : LogRecord :=
  mkLog INFO
    ("成功为 User '" ++ channel_name _ctx ++ "' 注入了 "
     ++ str_of_nat (length items) ++ " 条相关记忆。") false.

Definition absorbed_record (e : PyException) : LogRecord :=
  mkLog WARNING ("自动检索记忆时出错: " ++ exc_str e) false.

(** The items of a retrieval answer; [None] carries none. *)
Definition items_of (r : option RetrieveResponse) : list RelatedMemoryItem :=
  match r with
  | Some response => related_memories response
  | None => []
  end.

(** What the two explicit operations journal, log and raise. *)
Definition memorize_call (cfg : MemUConfig) (_ctx : AgentCtx)
    (conversation : string) (agent_id agent_name : option string) : Memu.Call :=
  Memu.Memorize (structured conversation) (from_chat_key _ctx)
    (channel_name _ctx) (if_not_None agent_id (AGENT_ID cfg))
    (if_not_None agent_name (AGENT_NAME cfg)).

Definition recall_call (_ctx : AgentCtx) (query : string) : Memu.Call :=
  Memu.Retrieve query (from_chat_key _ctx) 3%Z.

Definition submitted_record (r : MemorizeResponse) : LogRecord :=
  mkLog INFO
    ("已成功提交记忆任务到 memu.so，Task ID: " ++ task_id r ++ "。") false.

Definition memorize_failed_record (e : PyException) : LogRecord :=
  mkLog ERROR ("调用 memU.so 记忆服务时出错: " ++ exc_str e) true.

Definition recall_failed_record (e : PyException) : LogRecord :=
  mkLog ERROR ("主动检索记忆时出错: " ++ exc_str e) true.

Definition memorize_failure (e : PyException) : PyException :=
  RuntimeError
    ("Failed to memorize conversation: " ++ type_name e ++ ": " ++ exc_str e).

Definition recall_failure (e : PyException) : PyException :=
  RuntimeError
    ("Failed to recall memory: " ++ type_name e ++ ": " ++ exc_str e).

(** ** Vocabulary of the specification *)

(** [sub in s] on strings. *)
Fixpoint str_in (sub s : string) : bool :=
  String.prefix sub s
  || match s with
     | EmptyString => false
     | String _ rest => str_in sub rest
     end.

(** One line per memory, each prefixed with a dash. *)
Definition dashed_lines (items : list RelatedMemoryItem) : list string :=
  map (fun item => "- " ++ content (memory item)) items.

(** A numbered list starting at [n]: one memory per line, every line
    closed by a line feed. *)
Fixpoint numbered_list (n : nat) (items : list RelatedMemoryItem) : string :=
  match items with
  | [] => ""
  | item :: rest =>
      str_of_nat n ++ ". " ++ content (memory item) ++ LF
      ++ numbered_list (S n) rest
  end.

(** ** A small in-memory service, to run the plugin on concrete inputs *)

Module Demo.

(** The service is down for the next [outage] calls; [stored] is what it
    has been asked to remember. *)
Record world : Type := mkWorld { outage : nat; stored : list string }.

Definition unreachable : PyException :=
  mkException "TimeoutError" "memu.so did not answer".

Definition attempt {A : Type} (w : world) (k : world * A)
  : world * Outcome A :=
  match outage w with
  | S n => (mkWorld n (stored w), Raised unreachable)
  | O => (fst k, Returned (snd k))
  end.

Definition contents (conversation : list PyDict) : list string :=
  flat_map
    (fun d => map snd (filter (fun kv => (fst kv =? "content")%string) d))
    conversation.

Definition sdk : Memu.SDK := {|
  Memu.World := world;
  Memu.MemuClient := string * string;
  Memu.new := fun base_url api_key w => attempt w (w, (base_url, api_key));
  Memu.retrieve_related_memory_items := fun _ _ _ top_k w =>
    attempt w
      (w, Some (mkRetrieved
                  (map (fun t => mkRelated (mkMemory t))
                       (firstn (Z.to_nat top_k) (stored w)))));
  Memu.memorize_conversation := fun _ conversation _ _ _ _ w =>
    attempt w
      (mkWorld 0 (stored w ++ contents conversation)%list,
       mkMemorized ("task-" ++ str_of_nat (length (stored w))))
|}.

Definition cfg (api_key : string) (top_k : Z) : MemUConfig :=
  mkConfig api_key (BASE_URL default_config) (AGENT_ID default_config)
           (AGENT_NAME default_config) top_k.

(** The module as first imported: no client, nothing journalled. *)
Definition fresh (api_key : string) (top_k : Z) (w : world)
  : State (sdk := sdk) :=
  mkState (sdk := sdk) None (cfg api_key top_k) w [] [].

(** The module once the client has been built. *)
Definition connected (api_key : string) (top_k : Z) (w : world)
  : State (sdk := sdk) :=
  mkState (sdk := sdk) (Some (BASE_URL default_config, api_key))
          (cfg api_key top_k) w [] [].

Definition ctx : AgentCtx :=
  mkCtx "onebot_v11-group_42" "Tea Room"
    [ChatMessage.mk "user" "hello";
     ChatMessage.mk "assistant" "hi, how can I help?";
     ChatMessage.mk "user" "what is my favourite colour?";
     ChatMessage.mk "assistant" "let me think";
     ChatMessage.mk "user" "please recall it"].

Definition remembered : world :=
  mkWorld 0 ["likes blue"; "dislikes coffee"].

End Demo.

(** ** The configuration loader *)



(** ** The host *)

(** The three methods the plugin mounts: the prompt-injection method, the
    behaviour and the tool, each with the arguments the host passes. *)
Inductive Request : Type :=
| PromptInject (_ctx : AgentCtx)
| Memorize (_ctx : AgentCtx) (chat_key conversation : string)
           (agent_id agent_name : option string)
| Recall (_ctx : AgentCtx) (query : string).

Definition is_write (r : Request) : bool :=
  match r with
  | Memorize _ _ _ _ _ => true
  | _ => false
  end.

Definition is_memorize (c : Memu.Call) : bool :=
  match c with
  | Memu.Memorize _ _ _ _ _ => true
  | _ => false
  end.

(** The same context with another rolling history. *)
Definition with_history (_ctx : AgentCtx) (history : list ChatMessage.t)
  : AgentCtx :=
  mkCtx (from_chat_key _ctx) (channel_name _ctx) history.

Section Host.

Context {sdk : Memu.SDK}.

(** The host invoking one mounted method on the module. *)
Definition serve (r : Request) : Py string :=
  match r with
  | PromptInject _ctx => inject_relevant_memories _ctx
  | Memorize _ctx chat_key conversation agent_id agent_name =>
      memorize_conversation _ctx chat_key conversation agent_id agent_name
  | Recall _ctx query => recall_memory _ctx query
  end.

(** The module after a sequence of invocations; an invocation that raises
    leaves the module in the state it raised in. *)
Fixpoint session (rs : list Request) (s : State) : State :=
  match rs with
  | [] => s
  | r :: rest => session rest (fst (serve r s))
  end.

(** The module under another configuration, as after the user edits the
    plugin settings. *)
Definition with_config (s : State) (cfg : MemUConfig) : State :=
  mkState (memu_client s) cfg (world s) (calls s) (log s).

(** The SDK calls an invocation makes once the lifecycle step has left
    state [s1]. *)
Definition operation_calls (r : Request) (s1 : State) : list Memu.Call :=
  match r with
  | PromptInject _ctx =>
      if not_client (memu_client s1)
         || (RECALL_TOP_K (config s1) =? 0)%Z
         || not_str (query_text _ctx)
      then []
      else [inject_retrieval (config s1) _ctx]
  | Memorize _ctx _ conversation agent_id agent_name =>
      if not_client (memu_client s1) then []
      else [memorize_call (config s1) _ctx conversation agent_id agent_name]
  | Recall _ctx query =>
      if not_client (memu_client s1) then []
      else [recall_call _ctx query]
  end.

(** The SDK calls the lifecycle step makes from state [s]. *)
Definition lifecycle_calls (s : State) : list Memu.Call :=
  if not_client (memu_client s) && negb (not_str (MEMU_API_KEY (config s)))
  then [construct_call (config s)]
  else [].

End Host.

(** A service that refuses every call. *)
Module Offline.

Definition refused : PyException :=
  mkException "ConnectionRefusedError" "connection refused".

Definition sdk : Memu.SDK := {|
  Memu.World := unit;
  Memu.MemuClient := unit;
  Memu.new := fun _ _ w => (w, Raised refused);
  Memu.retrieve_related_memory_items := fun _ _ _ _ w => (w, Raised refused);
  Memu.memorize_conversation := fun _ _ _ _ _ _ w => (w, Raised refused)
|}.

Definition fresh (api_key : string) : State (sdk := sdk) :=
  mkState (sdk := sdk) None (Demo.cfg api_key 3) tt [] [].

End Offline.

(** * Properties *)

Section Basic_facts.

Context {sdk : Memu.SDK}.

Lemma app_two {A : Type} (l : list A) (a b : A) :
  ((l ++ [a]) ++ [b] = l ++ [a; b])%list.
Proof. rewrite <- app_assoc. reflexivity. Qed.

Lemma not_str_false s : not_str s = false <-> s <> "".
Proof. destruct s; simpl; split; intro H; congruence. Qed.

End Basic_facts.

(** ** Client lifecycle *)

Section Lifecycle.

Context {sdk : Memu.SDK}.

(** The four ways through the lifecycle function. *)
Lemma initialize_run (s : State) :
  _initialize_client_if_needed s =
  match memu_client s with
  | Some _ => (s, Returned tt)
  | None =>
      if not_str (MEMU_API_KEY (config s)) then
        (mkState None (config s) (world s) (calls s)
                 (log s ++ [key_missing_record])%list, Returned tt)
      else
        match Memu.new (BASE_URL (config s)) (MEMU_API_KEY (config s)) (world s) with
        | (w, Returned c) =>
            (mkState (Some c) (config s) w
                     (calls s ++ [construct_call (config s)])%list
                     (log s ++ [starting_record; started_record])%list,
             Returned tt)
        | (w, Raised e) =>
            (mkState None (config s) w
                     (calls s ++ [construct_call (config s)])%list
                     (log s ++ [starting_record;
                                mkLog ERROR ("MemUClient 初始化失败: " ++ exc_str e) true])%list,
             Returned tt)
        end
  end.
Proof.
  unfold _initialize_client_if_needed, bind, load_memu_client, get_config.
  destruct (memu_client s) as [c |] eqn:Hc; [reflexivity |].
  destruct (not_str (MEMU_API_KEY (config s))) eqn:Hk.
  - unfold logger_error, emit, logged. rewrite Hc. reflexivity.
  - unfold logger_info, logger_error, emit, try_except, bind, sdk_call,
      store_memu_client, logged, called. simpl. rewrite Hc.
    destruct (Memu.new _ _ (world s)) as [w [c | e]]; simpl;
      rewrite app_two; reflexivity.
Qed.

(** The lifecycle function never raises and never touches the
    configuration. *)
Lemma initialize_returns (s : State) :
  snd (_initialize_client_if_needed s) = Returned tt
  /\ config (ensured s) = config s.
Proof.
  unfold ensured. rewrite initialize_run.
  destruct (memu_client s); [split; reflexivity |].
  destruct (not_str _); [split; reflexivity |].
  destruct (Memu.new _ _ _) as [w [c | e]]; split; reflexivity.
Qed.

Lemma initialize_eq (s : State) :
  _initialize_client_if_needed s = (ensured s, Returned tt).
Proof.
  unfold ensured.
  destruct (initialize_returns s) as [H _].
  destruct (_initialize_client_if_needed s) as [s1 r]; simpl in *.
  now subst.
Qed.

Lemma initialize_present (s : State) c :
  memu_client s = Some c -> _initialize_client_if_needed s = (s, Returned tt).
Proof. intro H. rewrite initialize_run, H. reflexivity. Qed.

Lemma ensured_present (s : State) c :
  memu_client s = Some c -> ensured s = s.
Proof. intro H. unfold ensured. now rewrite (initialize_present s c H). Qed.

Lemma initialize_times_present n : forall (s : State) c,
  memu_client s = Some c -> initialize_times n s = s.
Proof.
  induction n as [| n IH]; intros s c H; simpl; [reflexivity |].
  rewrite (initialize_present s c H). simpl. now apply (IH s c).
Qed.

Lemma ensured_no_key (s : State) :
  memu_client s = None -> MEMU_API_KEY (config s) = "" ->
  memu_client (ensured s) = None /\ calls (ensured s) = calls s
  /\ world (ensured s) = world s.
Proof.
  intros Hc Hk. unfold ensured. rewrite initialize_run, Hc, Hk. simpl.
  repeat split.
Qed.

End Lifecycle.

Section Lifecycle_claims.

Context {sdk : Memu.SDK}.

(** C3. Lazy client lifecycle.  (1) When the handle exists, the lifecycle
    function returns at once and leaves the whole state as it was: nothing
    is constructed.  (2) From an absent handle, with a key present and a
    constructor that succeeds, any number [S n] of successive calls
    constructs the client exactly once and every call leaves the same
    handle.  (3) When the constructor raises, the call still returns, the
    handle stays absent, and the next call invokes the constructor again. *)
Theorem lazy_client_lifecycle :
  (forall (s : State) c,
      memu_client s = Some c ->
      _initialize_client_if_needed s = (s, Returned tt))
  /\ (forall (s : State) c w n,
         memu_client s = None ->
         MEMU_API_KEY (config s) <> "" ->
         Memu.new (BASE_URL (config s)) (MEMU_API_KEY (config s)) (world s)
         = (w, Returned c) ->
         memu_client (initialize_times (S n) s) = Some c
         /\ calls (initialize_times (S n) s)
            = (calls s ++ [construct_call (config s)])%list
         /\ constructions (initialize_times (S n) s) = S (constructions s))
  /\ (forall (s : State) e w,
         memu_client s = None ->
         MEMU_API_KEY (config s) <> "" ->
         Memu.new (BASE_URL (config s)) (MEMU_API_KEY (config s)) (world s)
         = (w, Raised e) ->
         snd (_initialize_client_if_needed s) = Returned tt
         /\ memu_client (ensured s) = None
         /\ calls (ensured s) = (calls s ++ [construct_call (config s)])%list
         /\ calls (ensured (ensured s))
            = (calls s ++ [construct_call (config s);
                           construct_call (config s)])%list).
Proof.
  split; [exact initialize_present | split].
  - intros s c w n Hc Hk Hnew.
    apply not_str_false in Hk.
    assert (Hs : _initialize_client_if_needed s =
                 (mkState (Some c) (config s) w
                    (calls s ++ [construct_call (config s)])%list
                    (log s ++ [starting_record; started_record])%list,
                  Returned tt)).
    { rewrite initialize_run, Hc, Hk, Hnew. reflexivity. }
    simpl initialize_times. rewrite Hs. simpl fst.
    rewrite (initialize_times_present n _ c) by reflexivity.
    unfold constructions. simpl.
    rewrite filter_app, length_app. simpl.
    repeat split. lia.
  - intros s e w Hc Hk Hnew.
    apply not_str_false in Hk.
    assert (Hs : _initialize_client_if_needed s =
                 (mkState None (config s) w
                    (calls s ++ [construct_call (config s)])%list
                    (log s ++ [starting_record;
                               mkLog ERROR ("MemUClient 初始化失败: " ++ exc_str e) true])%list,
                  Returned tt)).
    { rewrite initialize_run, Hc, Hk, Hnew. reflexivity. }
    assert (He : ensured s = fst (_initialize_client_if_needed s))
      by reflexivity.
    rewrite Hs in He |- *. simpl fst in He. rewrite He.
    split; [reflexivity | split; [reflexivity | split; [reflexivity |]]].
    unfold ensured. rewrite initialize_run.
    cbn [memu_client config world calls log]. rewrite Hk.
    destruct (Memu.new _ _ w) as [w2 [c2 | e2]];
      cbn [fst calls]; rewrite app_two; reflexivity.
Qed.

End Lifecycle_claims.

(** The three cases on the in-memory service: a handle that exists, three
    calls with a key and a service that answers, and a service that is
    down for the first call. *)
Lemma lazy_client_lifecycle_witness :
  let up := Demo.fresh "sk-live" 3 Demo.remembered in
  let down := Demo.fresh "sk-live" 3 (Demo.mkWorld 1 []) in
  (memu_client (ensured up) = Some ("https://api.memu.so", "sk-live")
   /\ _initialize_client_if_needed (ensured up) = (ensured up, Returned tt))
  /\ (memu_client up = None
      /\ MEMU_API_KEY (config up) <> ""
      /\ constructions (initialize_times 3 up) = 1)
  /\ (memu_client down = None
      /\ memu_client (ensured down) = None
      /\ calls (ensured (ensured down))
         = [construct_call (config down); construct_call (config down)]).
Proof.
  intros up down.
  destruct (lazy_client_lifecycle (sdk := Demo.sdk)) as [P1 [P2 P3]].
  split; [| split].
  - split; [reflexivity |].
    apply (P1 (ensured up) ("https://api.memu.so", "sk-live")). reflexivity.
  - split; [reflexivity | split; [discriminate |]].
    apply (P2 up ("https://api.memu.so", "sk-live") Demo.remembered 2);
      [reflexivity | discriminate | reflexivity].
  - split; [reflexivity |].
    destruct (P3 down Demo.unreachable (Demo.mkWorld 0 []))
      as [_ [H2 [_ H4]]]; [reflexivity | discriminate | reflexivity |].
    split; [exact H2 | exact H4].
Defined.

(** ** Strings and lists *)

Section Text_facts.

Lemma append_assoc (a b c : string) : (a ++ b) ++ c = a ++ (b ++ c).
Proof. induction a as [| x a IH]; simpl; [reflexivity | now rewrite IH]. Qed.

Lemma append_empty_l (a b : string) : a ++ b = "" -> a = "".
Proof. destruct a; simpl; [reflexivity | discriminate]. Qed.

Lemma prefix_append (a b : string) : String.prefix a (a ++ b) = true.
Proof.
  induction a as [| x a IH]; simpl.
  - destruct b; reflexivity.
  - destruct (ascii_dec x x) as [_ | N]; [exact IH | now elim N].
Qed.

(** [sub in pre + sub + post] *)
Lemma str_in_middle (sub pre post : string) :
  str_in sub (pre ++ sub ++ post) = true.
Proof.
  induction pre as [| x pre IH]; simpl.
  - pose proof (prefix_append sub post) as H.
    destruct (sub ++ post); cbn [str_in]; rewrite H; reflexivity.
  - rewrite IH. apply orb_true_r.
Qed.

Lemma join_cons (sep x y : string) (l : list string) :
  join sep (x :: y :: l) = x ++ sep ++ join sep (y :: l).
Proof. reflexivity. Qed.

Lemma append_empty_r (a : string) : a ++ "" = a.
Proof. induction a as [| x a IH]; simpl; [reflexivity | now rewrite IH]. Qed.

Lemma concat_empty_cons (x : string) (l : list string) :
  String.concat "" (x :: l) = x ++ String.concat "" l.
Proof. destruct l; simpl; [now rewrite append_empty_r | reflexivity]. Qed.

(** A join puts the separator before every part but the first. *)
Lemma join_separators (sep : string) (l : list string) : forall x,
  join sep (x :: l) = x ++ String.concat "" (map (fun y => sep ++ y) l).
Proof.
  induction l as [| y l IH]; intro x.
  - simpl. now rewrite append_empty_r.
  - rewrite join_cons, IH, map_cons, concat_empty_cons, append_assoc.
    reflexivity.
Qed.

Lemma last_n_split {A : Type} (n : nat) (l : list A) :
  exists older, l = (older ++ last_n n l)%list
                /\ length (last_n n l) = Nat.min n (length l).
Proof.
  exists (firstn (length l - n) l). unfold last_n. split.
  - symmetry. apply firstn_skipn.
  - rewrite length_skipn.
    destruct (Nat.min_spec n (length l)) as [[H E] | [H E]]; rewrite E; lia.
Qed.

Lemma last_n_nil {A : Type} (n : nat) (l : list A) :
  last_n (S n) l = [] -> l = [].
Proof.
  intro H. apply (f_equal (@length A)) in H. unfold last_n in H.
  rewrite length_skipn in H.
  destruct l; [reflexivity | cbn [length] in H; lia].
Qed.

Lemma history_line_nonempty (msg : ChatMessage.t) : history_line msg <> "".
Proof.
  unfold history_line. destruct (ChatMessage.role msg); discriminate.
Qed.

Lemma join_nonempty (sep x : string) (l : list string) :
  x <> "" -> join sep (x :: l) <> "".
Proof.
  intros Hx H. destruct l as [| y l]; [exact (Hx H) |].
  rewrite join_cons in H. exact (Hx (append_empty_l _ _ H)).
Qed.

(** The query is empty exactly when there is no history. *)
Lemma query_text_empty (_ctx : AgentCtx) :
  query_text _ctx = "" <-> message_history _ctx = [].
Proof.
  unfold query_text. split.
  - intro H. destruct (last_n 4 (message_history _ctx)) as [| m rest] eqn:E.
    + exact (last_n_nil 3 _ E).
    + simpl map in H. now apply join_nonempty in H; [| apply history_line_nonempty].
  - intro H. now rewrite H.
Qed.

(** The loop of the injection hook appends one dashed line per item. *)
Lemma prompt_lines_from (items : list RelatedMemoryItem) : forall acc,
  fold_left
    (fun lines memory_item =>
       (lines ++ [("- " ++ content (memory memory_item))%string])%list)
    items acc
  = (acc ++ dashed_lines items)%list.
Proof.
  induction items as [| item items IH]; intro acc; simpl.
  - now rewrite app_nil_r.
  - rewrite IH, <- app_assoc. reflexivity.
Qed.

Lemma prompt_lines_eq (items : list RelatedMemoryItem) :
  prompt_lines items = injection_header :: dashed_lines items.
Proof. unfold prompt_lines. now rewrite prompt_lines_from. Qed.

(** The loop of the recall tool, started at index [k] on text [acc]. *)
Lemma response_text_from (items : list RelatedMemoryItem) : forall k acc,
  fold_left
    (fun text '(i, memory_item) =>
       text ++ (str_of_nat (i + 1) ++ ". "
                ++ content (memory memory_item) ++ LF))
    (combine (seq k (length items)) items) acc
  = acc ++ numbered_list (S k) items.
Proof.
  induction items as [| item items IH]; intros k acc;
    cbn [length seq combine fold_left numbered_list].
  - now rewrite append_empty_r.
  - rewrite IH, Nat.add_1_r, !append_assoc. reflexivity.
Qed.

Lemma response_text_eq (items : list RelatedMemoryItem) :
  response_text items = lead_in ++ numbered_list 1 items.
Proof. unfold response_text, enumerate. apply response_text_from. Qed.

End Text_facts.

(** ** Auto-recall *)

Section Injection.

Context {sdk : Memu.SDK}.

(** The hook, seen from the state the lifecycle function leaves. *)
Lemma inject_run (_ctx : AgentCtx) (s : State) :
  inject_relevant_memories _ctx s =
  if not_client (memu_client (ensured s)) || (RECALL_TOP_K (config s) =? 0)%Z
  then (ensured s, Returned "")
  else
    match inject_guarded (config s) _ctx (ensured s) with
    | (s2, Returned text) => (s2, Returned text)
    | (s2, Raised e) => (logged s2 (absorbed_record e), Returned "")
    end.
Proof.
  unfold inject_relevant_memories, bind.
  rewrite initialize_eq. unfold get_config, load_memu_client.
  rewrite (proj2 (initialize_returns s)).
  destruct (not_client _ || _); [reflexivity |].
  unfold try_except.
  destruct (inject_guarded _ _ _) as [s2 [text | e]]; reflexivity.
Qed.

(** The guarded body, when the handle is there. *)
Lemma inject_guarded_run (cfg : MemUConfig) (_ctx : AgentCtx) (s : State) c :
  memu_client s = Some c ->
  inject_guarded cfg _ctx s =
  if not_str (query_text _ctx) then (s, Returned "")
  else
    match Memu.retrieve_related_memory_items c (query_text _ctx)
            (from_chat_key _ctx) (RECALL_TOP_K cfg) (world s) with
    | (w, Raised e) => (called s (inject_retrieval cfg _ctx) w, Raised e)
    | (w, Returned r) =>
        match items_of r with
        | [] => (called s (inject_retrieval cfg _ctx) w, Returned "")
        | _ :: _ =>
            (logged (called s (inject_retrieval cfg _ctx) w)
                    (injected_record _ctx (items_of r)),
             Returned (join LF (prompt_lines (items_of r))))
        end
    end.
Proof.
  intro Hc. unfold inject_guarded.
  destruct (not_str (query_text _ctx)); [reflexivity |].
  unfold memu_client_method, bind, load_memu_client, sdk_call.
  rewrite Hc.
  fold (inject_retrieval cfg _ctx).
  destruct (Memu.retrieve_related_memory_items _ _ _ _ _) as [w [[resp |] | e]];
    try reflexivity.
  simpl items_of. destruct (related_memories resp); reflexivity.
Qed.

Lemma not_client_false (o : option Memu.MemuClient) :
  not_client o = false -> exists c, o = Some c.
Proof. destruct o as [c |]; [now exists c | discriminate]. Qed.

(** The lifecycle function leaves the retrievals of the journal alone. *)
Lemma ensured_calls (s : State) :
  calls (ensured s) = calls s
  \/ calls (ensured s) = (calls s ++ [construct_call (config s)])%list.
Proof.
  unfold ensured. rewrite initialize_run.
  destruct (memu_client s); [now left |].
  destruct (not_str _); [now left |].
  destruct (Memu.new _ _ _) as [w [c | e]]; now right.
Qed.

(** With a handle and a non-zero RECALL_TOP_K the guarded body is
    entered. *)
Lemma gate_open (s : State) c :
  memu_client (ensured s) = Some c ->
  RECALL_TOP_K (config s) <> 0%Z ->
  not_client (memu_client (ensured s)) || (RECALL_TOP_K (config s) =? 0)%Z
  = false.
Proof. intros Hc Hk. rewrite Hc. simpl. now apply Z.eqb_neq. Qed.

Lemma query_text_nonempty (_ctx : AgentCtx) :
  message_history _ctx <> [] -> not_str (query_text _ctx) = false.
Proof.
  intro Hh. apply not_str_false. intro E. now apply query_text_empty in E.
Qed.

(** C1. The injection hook never raises: every call returns a text.  When
    its guarded body raises, whatever the exception and wherever in the
    body, the text is empty; this holds in particular when the retrieval
    call raises. *)
Theorem inject_never_raises (_ctx : AgentCtx) (s : State) :
  (exists text, snd (inject_relevant_memories _ctx s) = Returned text)
  /\ (forall s2 e,
         inject_guarded (config s) _ctx (ensured s) = (s2, Raised e) ->
         snd (inject_relevant_memories _ctx s) = Returned "")
  /\ (forall c w e,
         memu_client (ensured s) = Some c ->
         Memu.retrieve_related_memory_items c (query_text _ctx)
           (from_chat_key _ctx) (RECALL_TOP_K (config s)) (world (ensured s))
         = (w, Raised e) ->
         snd (inject_relevant_memories _ctx s) = Returned "").
Proof.
  rewrite inject_run.
  destruct (not_client _ || _) eqn:Hgate.
  - split; [now exists "" | split; reflexivity].
  - split; [| split].
    + destruct (inject_guarded _ _ _) as [s2 [text | e]];
        [now exists text | now exists ""].
    + intros s2 e H. rewrite H. reflexivity.
    + intros c w e Hc H.
      rewrite (inject_guarded_run _ _ _ c Hc).
      destruct (not_str _); [reflexivity |].
      rewrite H. reflexivity.
Qed.

(** C4. When the handle is absent after the lifecycle step (as it is when
    it was absent and the API key is empty), or when RECALL_TOP_K is 0, the
    hook returns the empty text whatever the history holds, in the state
    the lifecycle step left: no retrieval is made. *)
Theorem inject_silent_noop (_ctx : AgentCtx) (s : State) :
  (memu_client s = None /\ MEMU_API_KEY (config s) = "")
  \/ memu_client (ensured s) = None
  \/ RECALL_TOP_K (config s) = 0%Z ->
  inject_relevant_memories _ctx s = (ensured s, Returned "")
  /\ filter Memu.is_retrieve (calls (fst (inject_relevant_memories _ctx s)))
     = filter Memu.is_retrieve (calls s).
Proof.
  intro H.
  assert (Hgate : not_client (memu_client (ensured s))
                  || (RECALL_TOP_K (config s) =? 0)%Z = true).
  { destruct H as [[Hc Hk] | [Hc | Hk]].
    - destruct (ensured_no_key s Hc Hk) as [Hn _]. now rewrite Hn.
    - now rewrite Hc.
    - rewrite Hk. apply orb_true_r. }
  rewrite inject_run, Hgate. split; [reflexivity |].
  simpl fst. destruct (ensured_calls s) as [E | E]; rewrite E;
    [reflexivity |].
  rewrite filter_app. simpl. apply app_nil_r.
Qed.

(** C5. With the handle present and RECALL_TOP_K not 0: for a non-empty
    history the hook makes exactly one retrieval, whose query joins with
    line feeds the "role: content" lines of the last min(4, n) messages, in
    their order in the history, on behalf of the chat key.  The query is
    empty only for an empty history, and then the hook returns the empty
    text without any retrieval. *)
Theorem inject_query_window (_ctx : AgentCtx) (s : State) c :
  memu_client (ensured s) = Some c ->
  RECALL_TOP_K (config s) <> 0%Z ->
  (message_history _ctx <> [] ->
   exists older recent,
     message_history _ctx = (older ++ recent)%list
     /\ length recent = Nat.min 4 (length (message_history _ctx))
     /\ calls (fst (inject_relevant_memories _ctx s))
        = (calls (ensured s)
           ++ [Memu.Retrieve (join LF (map history_line recent))
                 (from_chat_key _ctx) (RECALL_TOP_K (config s))])%list)
  /\ (query_text _ctx = "" <-> message_history _ctx = [])
  /\ (query_text _ctx = "" ->
      inject_relevant_memories _ctx s = (ensured s, Returned "")).
Proof.
  intros Hc Hk.
  rewrite inject_run, (gate_open s c Hc Hk), (inject_guarded_run _ _ _ c Hc).
  split; [| split; [apply query_text_empty |]].
  - intro Hh.
    destruct (last_n_split 4 (message_history _ctx)) as [older [Ho Hl]].
    exists older, (last_n 4 (message_history _ctx)).
    split; [exact Ho | split; [exact Hl |]].
    rewrite (query_text_nonempty _ctx Hh).
    destruct (Memu.retrieve_related_memory_items _ _ _ _ _) as [w [r | e]];
      [destruct (items_of r) |]; reflexivity.
  - intro Hq. rewrite Hq. reflexivity.
Qed.

(** C7. With the handle present, RECALL_TOP_K not 0, a non-empty history
    and a retrieval that answers: an answer without items gives the empty
    text; an answer with items gives the header line followed by one
    "- content" line per item, joined by line feeds.  Written out, every
    item line is preceded by a line feed and nothing follows the last. *)
Theorem inject_formatting (_ctx : AgentCtx) (s : State) c w r :
  memu_client (ensured s) = Some c ->
  RECALL_TOP_K (config s) <> 0%Z ->
  message_history _ctx <> [] ->
  Memu.retrieve_related_memory_items c (query_text _ctx)
    (from_chat_key _ctx) (RECALL_TOP_K (config s)) (world (ensured s))
  = (w, Returned r) ->
  (items_of r = [] ->
   snd (inject_relevant_memories _ctx s) = Returned "")
  /\ (items_of r <> [] ->
      snd (inject_relevant_memories _ctx s)
      = Returned (join LF (injection_header :: dashed_lines (items_of r)))
      /\ join LF (injection_header :: dashed_lines (items_of r))
         = injection_header
           ++ String.concat ""
                (map (fun item => LF ++ "- " ++ content (memory item))
                     (items_of r))).
Proof.
  intros Hc Hk Hh Hr.
  rewrite inject_run, (gate_open s c Hc Hk), (inject_guarded_run _ _ _ c Hc),
    (query_text_nonempty _ctx Hh), Hr.
  split.
  - intro E. rewrite E. reflexivity.
  - intro N. split.
    + destruct (items_of r) as [| i l] eqn:E; [now elim N |].
      rewrite prompt_lines_eq. reflexivity.
    + rewrite join_separators. unfold dashed_lines. rewrite map_map.
      reflexivity.
Qed.

End Injection.

(** ** Memorize and recall *)

Section Operations.

Context {sdk : Memu.SDK}.

(** The memorize behaviour, seen from the state the lifecycle function
    leaves. *)
Lemma memorize_run (_ctx : AgentCtx) (chat_key conversation : string)
    (agent_id agent_name : option string) (s : State) :
  memorize_conversation _ctx chat_key conversation agent_id agent_name s =
  match memu_client (ensured s) with
  | None => (ensured s, Raised (ConnectionError not_initialized))
  | Some c =>
      let call := memorize_call (config s) _ctx conversation agent_id agent_name in
      match Memu.memorize_conversation c (structured conversation)
              (from_chat_key _ctx) (channel_name _ctx)
              (if_not_None agent_id (AGENT_ID (config s)))
              (if_not_None agent_name (AGENT_NAME (config s)))
              (world (ensured s)) with
      | (w, Returned r) =>
          (logged (called (ensured s) call w) (submitted_record r),
           Returned (confirmation (if_not_None agent_name (AGENT_NAME (config s)))))
      | (w, Raised e) =>
          (logged (called (ensured s) call w) (memorize_failed_record e),
           Raised (memorize_failure e))
      end
  end.
Proof.
  unfold memorize_conversation, bind at 1 2.
  rewrite initialize_eq. unfold load_memu_client.
  destruct (memu_client (ensured s)) as [c |] eqn:Hc; [| reflexivity].
  cbn [not_client]. unfold try_except, memorize_guarded, bind at 1 2.
  unfold get_config, memu_client_method, bind at 1, load_memu_client.
  rewrite Hc, (proj2 (initialize_returns s)).
  unfold sdk_call. fold (memorize_call (config s) _ctx conversation agent_id agent_name).
  destruct (Memu.memorize_conversation _ _ _ _ _ _ _) as [w [r | e]];
    reflexivity.
Qed.

(** The recall tool, seen the same way. *)
Lemma recall_run (_ctx : AgentCtx) (query : string) (s : State) :
  recall_memory _ctx query s =
  match memu_client (ensured s) with
  | None => (ensured s, Raised (ConnectionError not_initialized))
  | Some c =>
      match Memu.retrieve_related_memory_items c query (from_chat_key _ctx)
              3%Z (world (ensured s)) with
      | (w, Returned r) =>
          (called (ensured s) (recall_call _ctx query) w,
           Returned match items_of r with
                    | [] => nothing_found
                    | _ :: _ => response_text (items_of r)
                    end)
      | (w, Raised e) =>
          (logged (called (ensured s) (recall_call _ctx query) w)
                  (recall_failed_record e),
           Raised (recall_failure e))
      end
  end.
Proof.
  unfold recall_memory, bind at 1 2.
  rewrite initialize_eq. unfold load_memu_client.
  destruct (memu_client (ensured s)) as [c |] eqn:Hc; [| reflexivity].
  cbn [not_client]. unfold try_except, recall_guarded, bind.
  unfold memu_client_method, bind, load_memu_client, sdk_call.
  rewrite Hc. fold (recall_call _ctx query).
  destruct (Memu.retrieve_related_memory_items _ _ _ _ _) as [w [[resp |] | e]];
    try reflexivity.
  simpl items_of. destruct (related_memories resp); reflexivity.
Qed.

(** A failure message names the class and the text of its cause. *)
Lemma failure_message_mentions (what : string) (e : PyException) :
  str_in (type_name e) (what ++ type_name e ++ ": " ++ exc_str e) = true
  /\ str_in (exc_str e) (what ++ type_name e ++ ": " ++ exc_str e) = true.
Proof.
  split; [apply str_in_middle |].
  replace (what ++ type_name e ++ ": " ++ exc_str e)
    with ((what ++ type_name e ++ ": ") ++ exc_str e ++ "").
  - apply str_in_middle.
  - now rewrite append_empty_r, !append_assoc.
Qed.

End Operations.

Section Operation_claims.

Context {sdk : Memu.SDK}.

(** C2. Recall and memorize surface their failures.  For each of the two:
    an absent handle after the lifecycle step raises ConnectionError; a
    remote call that raises [e] makes the operation raise RuntimeError
    with the message "Failed to ...: <type name of e>: <text of e>", which
    contains both; and a returned value is only ever produced when the
    handle was present and the remote call returned. *)
Theorem explicit_operations_surface_failures (_ctx : AgentCtx) (s : State) :
  (forall query,
      (memu_client (ensured s) = None ->
       snd (recall_memory _ctx query s)
       = Raised (ConnectionError not_initialized))
      /\ (forall c w e,
             memu_client (ensured s) = Some c ->
             Memu.retrieve_related_memory_items c query (from_chat_key _ctx)
               3%Z (world (ensured s)) = (w, Raised e) ->
             let msg := "Failed to recall memory: "
                        ++ type_name e ++ ": " ++ exc_str e in
             snd (recall_memory _ctx query s) = Raised (RuntimeError msg)
             /\ str_in (type_name e) msg = true
             /\ str_in (exc_str e) msg = true)
      /\ (forall text,
             snd (recall_memory _ctx query s) = Returned text ->
             exists c w r,
               memu_client (ensured s) = Some c
               /\ Memu.retrieve_related_memory_items c query
                    (from_chat_key _ctx) 3%Z (world (ensured s))
                  = (w, Returned r)))
  /\ (forall chat_key conversation agent_id agent_name,
         (memu_client (ensured s) = None ->
          snd (memorize_conversation _ctx chat_key conversation
                 agent_id agent_name s)
          = Raised (ConnectionError not_initialized))
         /\ (forall c w e,
                memu_client (ensured s) = Some c ->
                Memu.memorize_conversation c (structured conversation)
                  (from_chat_key _ctx) (channel_name _ctx)
                  (if_not_None agent_id (AGENT_ID (config s)))
                  (if_not_None agent_name (AGENT_NAME (config s)))
                  (world (ensured s)) = (w, Raised e) ->
                let msg := "Failed to memorize conversation: "
                           ++ type_name e ++ ": " ++ exc_str e in
                snd (memorize_conversation _ctx chat_key conversation
                       agent_id agent_name s) = Raised (RuntimeError msg)
                /\ str_in (type_name e) msg = true
                /\ str_in (exc_str e) msg = true)
         /\ (forall text,
                snd (memorize_conversation _ctx chat_key conversation
                       agent_id agent_name s) = Returned text ->
                exists c w r,
                  memu_client (ensured s) = Some c
                  /\ Memu.memorize_conversation c (structured conversation)
                       (from_chat_key _ctx) (channel_name _ctx)
                       (if_not_None agent_id (AGENT_ID (config s)))
                       (if_not_None agent_name (AGENT_NAME (config s)))
                       (world (ensured s)) = (w, Returned r))).
Proof.
  split.
  - intro query. rewrite recall_run. split; [| split].
    + intro Hc. rewrite Hc. reflexivity.
    + intros c w e Hc Hr msg. rewrite Hc, Hr.
      split; [reflexivity | apply failure_message_mentions].
    + intros text H.
      destruct (memu_client (ensured s)) as [c |]; [| discriminate].
      destruct (Memu.retrieve_related_memory_items _ _ _ _ _)
        as [w [r | e]] eqn:Hr; [| discriminate].
      now exists c, w, r.
  - intros chat_key conversation agent_id agent_name.
    rewrite memorize_run. split; [| split].
    + intro Hc. rewrite Hc. reflexivity.
    + intros c w e Hc Hr msg. rewrite Hc. cbv zeta. rewrite Hr.
      split; [reflexivity | apply failure_message_mentions].
    + intros text H.
      destruct (memu_client (ensured s)) as [c |]; [| discriminate].
      cbv zeta in H.
      destruct (Memu.memorize_conversation _ _ _ _ _ _ _)
        as [w [r | e]] eqn:Hr; [| discriminate].
      now exists c, w, r.
Qed.

(** C6. With the handle present, memorize submits exactly one request: the
    conversation as one "user" fragment, on behalf of the chat key and the
    channel name, under the persona made of the supplied agent_id and
    agent_name where given and of the configured AGENT_ID and AGENT_NAME
    where omitted.  When the service accepts it, the confirmation returned
    is built around the resolved agent_name and contains it. *)
Theorem memorize_persona (_ctx : AgentCtx) (chat_key conversation : string)
    (agent_id agent_name : option string) (s : State) c :
  memu_client (ensured s) = Some c ->
  let final_agent_id :=
    match agent_id with Some supplied => supplied | None => AGENT_ID (config s) end in
  let final_agent_name :=
    match agent_name with Some supplied => supplied | None => AGENT_NAME (config s) end in
  calls (fst (memorize_conversation _ctx chat_key conversation
                agent_id agent_name s))
  = (calls (ensured s)
     ++ [Memu.Memorize [[("role", "user"); ("content", conversation)]]
           (from_chat_key _ctx) (channel_name _ctx)
           final_agent_id final_agent_name])%list
  /\ (forall w r,
         Memu.memorize_conversation c
           [[("role", "user"); ("content", conversation)]]
           (from_chat_key _ctx) (channel_name _ctx)
           final_agent_id final_agent_name (world (ensured s))
         = (w, Returned r) ->
         snd (memorize_conversation _ctx chat_key conversation
                agent_id agent_name s)
         = Returned ("✅ " ++ final_agent_name
                     ++ " 已经收到指令，会把内容记下来的！")
         /\ str_in final_agent_name
              ("✅ " ++ final_agent_name
               ++ " 已经收到指令，会把内容记下来的！") = true).
Proof.
  intros Hc final_agent_id final_agent_name.
  rewrite memorize_run, Hc. cbv zeta.
  fold (if_not_None agent_id (AGENT_ID (config s))) in final_agent_id.
  fold (if_not_None agent_name (AGENT_NAME (config s))) in final_agent_name.
  fold (structured conversation).
  split.
  - destruct (Memu.memorize_conversation _ _ _ _ _ _ _) as [w [r | e]];
      reflexivity.
  - intros w r Hr. subst final_agent_id final_agent_name. rewrite Hr.
    split; [reflexivity | apply str_in_middle].
Qed.

(** C8. With the handle present and a retrieval that answers: an answer
    without items (or no answer object) gives the fixed "nothing found"
    message; an answer with items gives the lead-in sentence, a line feed,
    and the items numbered from 1, one per line, every line closed by a
    line feed, contents verbatim. *)
Theorem recall_formatting (_ctx : AgentCtx) (query : string) (s : State) c w r :
  memu_client (ensured s) = Some c ->
  Memu.retrieve_related_memory_items c query (from_chat_key _ctx) 3%Z
    (world (ensured s)) = (w, Returned r) ->
  (items_of r = [] ->
   snd (recall_memory _ctx query s)
   = Returned "（在记忆中没有找到相关信息。）")
  /\ (items_of r <> [] ->
      snd (recall_memory _ctx query s)
      = Returned (lead_in_sentence ++ LF ++ numbered_list 1 (items_of r))).
Proof.
  intros Hc Hr. rewrite recall_run, Hc, Hr. split.
  - intro E. rewrite E. reflexivity.
  - intro N. destruct (items_of r) as [| i l] eqn:E; [now elim N |].
    cbn [snd]. rewrite response_text_eq. unfold lead_in.
    now rewrite append_assoc.
Qed.

(** C9. The chat_key argument of memorize is never read: two calls that
    differ only in it end in the same state with the same outcome, and every
    memorize request a call submits is made on behalf of the context's
    from_chat_key. *)
Theorem memorize_ignores_chat_key (_ctx : AgentCtx)
    (chat_key1 chat_key2 conversation : string)
    (agent_id agent_name : option string) (s : State) :
  memorize_conversation _ctx chat_key1 conversation agent_id agent_name s
  = memorize_conversation _ctx chat_key2 conversation agent_id agent_name s
  /\ exists submitted,
       calls (fst (memorize_conversation _ctx chat_key1 conversation
                     agent_id agent_name s))
       = (calls s ++ submitted)%list
       /\ forall conv user_id user_name aid aname,
            In (Memu.Memorize conv user_id user_name aid aname) submitted ->
            user_id = from_chat_key _ctx.
Proof.
  split; [reflexivity |].
  rewrite memorize_run.
  assert (Hpre : exists pre,
             calls (ensured s) = (calls s ++ pre)%list
             /\ forall conv u n a b, ~ In (Memu.Memorize conv u n a b) pre).
  { destruct (ensured_calls s) as [E | E]; rewrite E.
    - exists []. rewrite app_nil_r. split; [reflexivity | intros; intro F; exact F].
    - eexists. split; [reflexivity |].
      intros conv u n a b [F | F]; [discriminate F | exact F]. }
  destruct Hpre as [pre [Epre Hpre]].
  destruct (memu_client (ensured s)) as [c |].
  - cbv zeta.
    exists (pre ++ [memorize_call (config s) _ctx conversation agent_id agent_name])%list.
    split.
    + destruct (Memu.memorize_conversation _ _ _ _ _ _ _) as [w [r | e]];
        cbn [fst logged called calls]; rewrite Epre, <- app_assoc; reflexivity.
    + intros conv u n a b Hin. apply in_app_or in Hin.
      destruct Hin as [Hin | [Hin | []]]; [now apply Hpre in Hin |].
      unfold memorize_call in Hin. now inversion Hin.
  - exists pre. split; [exact Epre |].
    intros conv u n a b Hin. now apply Hpre in Hin.
Qed.

(** C10. An empty string counts as a supplied persona.  With the handle
    present, agent_id="" is submitted as the persona id and agent_name=""
    as the persona name, whatever the configured defaults are, and the
    confirmation is then built around the empty name; and a request carries
    the configured AGENT_ID (or AGENT_NAME) in place of the argument only
    when the argument is None or equal to that default. *)
Theorem memorize_empty_persona (_ctx : AgentCtx) (chat_key conversation : string)
    (s : State) c :
  memu_client (ensured s) = Some c ->
  (forall agent_name,
      calls (fst (memorize_conversation _ctx chat_key conversation
                    (Some "") agent_name s))
      = (calls (ensured s)
         ++ [Memu.Memorize (structured conversation) (from_chat_key _ctx)
               (channel_name _ctx) ""
               (if_not_None agent_name (AGENT_NAME (config s)))])%list)
  /\ (forall agent_id,
         calls (fst (memorize_conversation _ctx chat_key conversation
                       agent_id (Some "") s))
         = (calls (ensured s)
            ++ [Memu.Memorize (structured conversation) (from_chat_key _ctx)
                  (channel_name _ctx)
                  (if_not_None agent_id (AGENT_ID (config s))) ""])%list
         /\ forall w r,
              Memu.memorize_conversation c (structured conversation)
                (from_chat_key _ctx) (channel_name _ctx)
                (if_not_None agent_id (AGENT_ID (config s))) ""
                (world (ensured s)) = (w, Returned r) ->
              snd (memorize_conversation _ctx chat_key conversation
                     agent_id (Some "") s)
              = Returned "✅  已经收到指令，会把内容记下来的！")
  /\ (forall agent_id agent_name conv user_id user_name,
         (calls (fst (memorize_conversation _ctx chat_key conversation
                        agent_id agent_name s))
          = (calls (ensured s)
             ++ [Memu.Memorize conv user_id user_name
                   (AGENT_ID (config s)) (AGENT_NAME (config s))])%list) ->
         (agent_id = None \/ agent_id = Some (AGENT_ID (config s)))
         /\ (agent_name = None \/ agent_name = Some (AGENT_NAME (config s)))).
Proof.
  intro Hc. split; [| split].
  - intro agent_name.
    rewrite memorize_run, Hc. cbv zeta.
    destruct (Memu.memorize_conversation _ _ _ _ _ _ _) as [w [r | e]];
      reflexivity.
  - intro agent_id.
    rewrite memorize_run, Hc. cbv zeta. split.
    + destruct (Memu.memorize_conversation _ _ _ _ _ _ _) as [w [r | e]];
        reflexivity.
    + intros w r Hr. cbn [if_not_None] in *. rewrite Hr. reflexivity.
  - intros agent_id agent_name conv user_id user_name.
    rewrite memorize_run, Hc. cbv zeta. intro H.
    assert (E : memorize_call (config s) _ctx conversation agent_id agent_name
                = Memu.Memorize conv user_id user_name
                    (AGENT_ID (config s)) (AGENT_NAME (config s))).
    { destruct (Memu.memorize_conversation _ _ _ _ _ _ _) as [w [r | e]];
        cbn [fst logged called calls] in H;
        apply app_inv_head in H; now inversion H. }
    unfold memorize_call in E. split.
    + destruct agent_id as [x |]; [right | now left].
      cbn [if_not_None] in E. congruence.
    + destruct agent_name as [x |]; [right | now left].
      cbn [if_not_None] in E. congruence.
Qed.

End Operation_claims.

(** ** Runs on the in-memory service *)

(** C1 where the service is down when the hook retrieves: the guarded body
    raises and the hook returns the empty text. *)
Lemma inject_never_raises_witness :
  let s := Demo.connected "sk-live" 3 (Demo.mkWorld 1 ["likes blue"]) in
  inject_guarded (config s) Demo.ctx (ensured s)
  = (called s (inject_retrieval (config s) Demo.ctx) (Demo.mkWorld 0 ["likes blue"]),
     Raised Demo.unreachable)
  /\ snd (inject_relevant_memories Demo.ctx s) = Returned "".
Proof.
  intro s. split; [reflexivity |].
  apply (proj2 (proj2 (inject_never_raises (sdk := Demo.sdk) Demo.ctx s))
           (BASE_URL default_config, "sk-live")
           (Demo.mkWorld 0 ["likes blue"]) Demo.unreachable);
    reflexivity.
Defined.

(** C2: recall without a key, and memorize against a service that is
    down. *)
Lemma explicit_operations_surface_failures_witness :
  let absent := Demo.fresh "" 3 Demo.remembered in
  let down := Demo.connected "sk-live" 3 (Demo.mkWorld 1 []) in
  (memu_client (ensured absent) = None
   /\ snd (recall_memory Demo.ctx "favourite colour" absent)
      = Raised (ConnectionError not_initialized))
  /\ snd (memorize_conversation Demo.ctx "session_123" "likes blue" None None down)
     = Raised (RuntimeError
                 "Failed to memorize conversation: TimeoutError: memu.so did not answer").
Proof.
  intros absent down. split.
  - split; [reflexivity |].
    apply (proj1 (proj1 (explicit_operations_surface_failures
                           (sdk := Demo.sdk) Demo.ctx absent)
                   "favourite colour")).
    reflexivity.
  - apply (proj1 (proj2 (proj2 (explicit_operations_surface_failures
                                  (sdk := Demo.sdk) Demo.ctx down)
                          "session_123" "likes blue" None None))
             (BASE_URL default_config, "sk-live")
             (Demo.mkWorld 0 []) Demo.unreachable);
      reflexivity.
Defined.

(** C4: no key; a key but a constructor that fails; RECALL_TOP_K = 0 with a
    client and memories at hand. *)
Lemma inject_silent_noop_witness :
  snd (inject_relevant_memories Demo.ctx (Demo.fresh "" 3 Demo.remembered))
  = Returned ""
  /\ snd (inject_relevant_memories Demo.ctx
            (Demo.fresh "sk-live" 3 (Demo.mkWorld 1 ["likes blue"])))
     = Returned ""
  /\ snd (inject_relevant_memories Demo.ctx
            (Demo.connected "sk-live" 0 Demo.remembered))
     = Returned "".
Proof.
  split; [| split].
  - refine (f_equal snd (proj1 (inject_silent_noop (sdk := Demo.sdk) Demo.ctx
                                  (Demo.fresh "" 3 Demo.remembered) _))).
    left. split; reflexivity.
  - refine (f_equal snd (proj1 (inject_silent_noop (sdk := Demo.sdk) Demo.ctx
                                  (Demo.fresh "sk-live" 3
                                     (Demo.mkWorld 1 ["likes blue"])) _))).
    right. left. reflexivity.
  - refine (f_equal snd (proj1 (inject_silent_noop (sdk := Demo.sdk) Demo.ctx
                                  (Demo.connected "sk-live" 0 Demo.remembered) _))).
    right. right. reflexivity.
Defined.

(** C5 on a history of five messages: the query holds the last four. *)
Lemma inject_query_window_witness :
  let s := Demo.connected "sk-live" 3 Demo.remembered in
  query_text Demo.ctx
  = join LF ["assistant: hi, how can I help?";
             "user: what is my favourite colour?";
             "assistant: let me think";
             "user: please recall it"]
  /\ exists older recent,
       message_history Demo.ctx = (older ++ recent)%list
       /\ length recent = 4
       /\ calls (fst (inject_relevant_memories Demo.ctx s))
          = [Memu.Retrieve (join LF (map history_line recent))
               "onebot_v11-group_42" 3%Z].
Proof.
  intro s. split; [reflexivity |].
  refine (proj1 (inject_query_window (sdk := Demo.sdk) Demo.ctx s
                   (BASE_URL default_config, "sk-live") _ _) _);
    [reflexivity | discriminate | discriminate].
Defined.

(** C6 with an explicit id and the default name; the chat_key argument
    differs from the chat key of the context. *)
Lemma memorize_persona_witness :
  let s := Demo.connected "sk-live" 3 Demo.remembered in
  calls (fst (memorize_conversation Demo.ctx "session_123" "likes tea"
                (Some "X") None s))
  = [Memu.Memorize [[("role", "user"); ("content", "likes tea")]]
       "onebot_v11-group_42" "Tea Room" "X" "Nekro Assistant"]
  /\ snd (memorize_conversation Demo.ctx "session_123" "likes tea"
            (Some "X") None s)
     = Returned "✅ Nekro Assistant 已经收到指令，会把内容记下来的！".
Proof.
  intro s.
  destruct (memorize_persona (sdk := Demo.sdk) Demo.ctx "session_123"
              "likes tea" (Some "X") None s
              (BASE_URL default_config, "sk-live") eq_refl) as [Hcall Hok].
  split; [exact Hcall |].
  exact (proj1 (Hok (Demo.mkWorld 0 ["likes blue"; "dislikes coffee"; "likes tea"])
                    (mkMemorized "task-2") eq_refl)).
Defined.

(** C7 on the two memories "likes blue" and "dislikes coffee". *)
Lemma inject_formatting_witness :
  let s := Demo.connected "sk-live" 3 Demo.remembered in
  snd (inject_relevant_memories Demo.ctx s)
  = Returned (join LF ["--- Relevant Memories Retrieved From Your Past ---";
                       "- likes blue";
                       "- dislikes coffee"]).
Proof.
  intro s.
  refine (proj1 (proj2 (inject_formatting (sdk := Demo.sdk) Demo.ctx s
                          (BASE_URL default_config, "sk-live") Demo.remembered
                          (Some (mkRetrieved
                                   [mkRelated (mkMemory "likes blue");
                                    mkRelated (mkMemory "dislikes coffee")]))
                          _ _ _ _) _));
    [reflexivity | discriminate | discriminate | reflexivity | discriminate].
Defined.

(** C8 on the same two memories. *)
Lemma recall_formatting_witness :
  let s := Demo.connected "sk-live" 3 Demo.remembered in
  snd (recall_memory Demo.ctx "what do I like?" s)
  = Returned (lead_in_sentence ++ LF
              ++ "1. likes blue" ++ LF ++ "2. dislikes coffee" ++ LF).
Proof.
  intro s.
  refine (proj2 (recall_formatting (sdk := Demo.sdk) Demo.ctx "what do I like?" s
                   (BASE_URL default_config, "sk-live") Demo.remembered
                   (Some (mkRetrieved
                            [mkRelated (mkMemory "likes blue");
                             mkRelated (mkMemory "dislikes coffee")]))
                   _ _) _);
    [reflexivity | reflexivity | discriminate].
Defined.

(** C10 with both persona arguments empty, against non-empty defaults. *)
Lemma memorize_empty_persona_witness :
  let s := Demo.connected "sk-live" 3 Demo.remembered in
  AGENT_ID (config s) = "nekro_agent"
  /\ AGENT_NAME (config s) = "Nekro Assistant"
  /\ calls (fst (memorize_conversation Demo.ctx "session_123" "likes tea"
                   (Some "") (Some "") s))
     = [Memu.Memorize (structured "likes tea") "onebot_v11-group_42"
          "Tea Room" "" ""]
  /\ snd (memorize_conversation Demo.ctx "session_123" "likes tea"
            (Some "") (Some "") s)
     = Returned "✅  已经收到指令，会把内容记下来的！".
Proof.
  intro s. split; [reflexivity | split; [reflexivity |]].
  destruct (proj1 (proj2 (memorize_empty_persona (sdk := Demo.sdk) Demo.ctx
                            "session_123" "likes tea" s
                            (BASE_URL default_config, "sk-live") eq_refl))
              (Some "")) as [Hcall Hok].
  split; [exact Hcall |].
  exact (Hok (Demo.mkWorld 0 ["likes blue"; "dislikes coffee"; "likes tea"])
             (mkMemorized "task-2") eq_refl).
Defined.

(** * Further properties of the entry points *)

Section Entry_points.

Context {sdk : Memu.SDK}.

(** Every way through the injection hook. *)
Lemma inject_full (_ctx : AgentCtx) (s : State) :
  inject_relevant_memories _ctx s =
  match memu_client (ensured s) with
  | None => (ensured s, Returned "")
  | Some c =>
      if (RECALL_TOP_K (config s) =? 0)%Z then (ensured s, Returned "")
      else if not_str (query_text _ctx) then (ensured s, Returned "")
      else
        match Memu.retrieve_related_memory_items c (query_text _ctx)
                (from_chat_key _ctx) (RECALL_TOP_K (config s))
                (world (ensured s)) with
        | (w, Raised e) =>
            (logged (called (ensured s) (inject_retrieval (config s) _ctx) w)
                    (absorbed_record e),
             Returned "")
        | (w, Returned r) =>
            match items_of r with
            | [] =>
                (called (ensured s) (inject_retrieval (config s) _ctx) w,
                 Returned "")
            | _ :: _ =>
                (logged (called (ensured s) (inject_retrieval (config s) _ctx) w)
                        (injected_record _ctx (items_of r)),
                 Returned (join LF (prompt_lines (items_of r))))
            end
        end
  end.
Proof.
  rewrite inject_run.
  destruct (memu_client (ensured s)) as [c |] eqn:Hc; [| reflexivity].
  cbn [not_client orb].
  destruct (RECALL_TOP_K (config s) =? 0)%Z; [reflexivity |].
  rewrite (inject_guarded_run _ _ _ c Hc).
  destruct (not_str (query_text _ctx)); [reflexivity |].
  destruct (Memu.retrieve_related_memory_items _ _ _ _ _) as [w [r | e]];
    [destruct (items_of r) |]; reflexivity.
Qed.

Lemma ensured_config (s : State) : config (ensured s) = config s.
Proof. exact (proj2 (initialize_returns s)). Qed.

(** What the lifecycle step journals. *)
Lemma ensured_footprint (s : State) :
  calls (ensured s) = (calls s ++ lifecycle_calls s)%list.
Proof.
  unfold ensured, lifecycle_calls. rewrite initialize_run.
  destruct (memu_client s); cbn [not_client andb fst calls];
    [now rewrite app_nil_r |].
  destruct (not_str _); cbn [negb fst calls]; [now rewrite app_nil_r |].
  destruct (Memu.new _ _ _) as [w [c | e]]; reflexivity.
Qed.

(** An invocation leaves the handle and the configuration as the lifecycle
    step left them, and journals the calls of [operation_calls]. *)
Lemma serve_effect (r : Request) (s : State) :
  memu_client (fst (serve r s)) = memu_client (ensured s)
  /\ config (fst (serve r s)) = config s
  /\ calls (fst (serve r s))
     = (calls (ensured s) ++ operation_calls r (ensured s))%list.
Proof.
  pose proof (ensured_config s) as Hcfg.
  destruct r as [_ctx | _ctx chat_key conversation agent_id agent_name
                 | _ctx query];
    cbn [serve operation_calls]; rewrite ?Hcfg.
  - rewrite inject_full.
    destruct (memu_client (ensured s)) as [c |] eqn:Hc; cbn [not_client orb];
      [| rewrite app_nil_r; auto].
    destruct (RECALL_TOP_K (config s) =? 0)%Z; cbn [orb];
      [rewrite app_nil_r; auto |].
    destruct (not_str (query_text _ctx));
      [rewrite app_nil_r; auto |].
    destruct (Memu.retrieve_related_memory_items _ _ _ _ _) as [w [r | e]];
      [destruct (items_of r) |]; cbn; auto.
  - rewrite memorize_run.
    destruct (memu_client (ensured s)) as [c |] eqn:Hc; cbn [not_client];
      [| rewrite app_nil_r; auto].
    cbv zeta.
    destruct (Memu.memorize_conversation _ _ _ _ _ _ _) as [w [r | e]];
      cbn; auto.
  - rewrite recall_run.
    destruct (memu_client (ensured s)) as [c |] eqn:Hc; cbn [not_client];
      [| rewrite app_nil_r; auto].
    destruct (Memu.retrieve_related_memory_items _ _ _ _ _) as [w [r | e]];
      cbn; auto.
Qed.

(** Without a handle after the lifecycle step, an invocation does nothing
    more. *)
Lemma serve_absent (r : Request) (s : State) :
  memu_client (ensured s) = None -> fst (serve r s) = ensured s.
Proof.
  intro Hc.
  destruct r; cbn [serve];
    [rewrite inject_full | rewrite memorize_run | rewrite recall_run];
    rewrite Hc; reflexivity.
Qed.

Lemma operation_calls_not_construct (r : Request) (s1 : State) :
  filter Memu.is_construct (operation_calls r s1) = [].
Proof.
  destruct r; cbn [operation_calls];
    match goal with |- context [if ?b then _ else _] => destruct b end;
    reflexivity.
Qed.

Lemma connected_calls_memorize (r : Request) (s1 : State) c :
  memu_client s1 = Some c ->
  length (filter is_memorize (operation_calls r s1))
  = if is_write r then 1 else 0.
Proof.
  intro Hc. destruct r; cbn [is_write operation_calls]; rewrite Hc;
    cbn [not_client orb]; try reflexivity.
  match goal with |- context [if ?b then _ else _] => destruct b end;
    reflexivity.
Qed.

(** With the handle present, a sequence of invocations keeps it, never
    calls the constructor and submits once per memorize request. *)
Lemma session_connected (rs : list Request) : forall (s : State) c,
  memu_client s = Some c ->
  memu_client (session rs s) = Some c
  /\ exists ops,
       calls (session rs s) = (calls s ++ ops)%list
       /\ filter Memu.is_construct ops = []
       /\ length (filter is_memorize ops) = length (filter is_write rs).
Proof.
  induction rs as [| r rs IH]; intros s c Hc; cbn [session].
  - split; [exact Hc |]. exists []. now rewrite app_nil_r.
  - destruct (serve_effect r s) as [Hm [_ Hcalls]].
    rewrite (ensured_present s c Hc) in Hm, Hcalls. rewrite Hc in Hm.
    destruct (IH _ c Hm) as [H1 [ops [H2 [H3 H4]]]].
    split; [exact H1 |].
    exists (operation_calls r s ++ ops)%list.
    rewrite H2, Hcalls, <- app_assoc, !filter_app, length_app,
      operation_calls_not_construct, H3, H4,
      (connected_calls_memorize r s c Hc).
    repeat split. cbn [filter]. destruct (is_write r); reflexivity.
Qed.

(** X1. The footprint of an invocation on the SDK.  The lifecycle step
    calls the constructor exactly when the handle is absent and the API key
    is not empty.  After it, the hook makes one retrieval exactly when the
    handle is present, RECALL_TOP_K is not 0 and the query is not empty;
    memorize and recall make one call exactly when the handle is present.
    Nothing else is ever called. *)
Theorem sdk_footprint (r : Request) (s : State) :
  calls (fst (serve r s))
  = (calls s ++ lifecycle_calls s ++ operation_calls r (ensured s))%list.
Proof.
  destruct (serve_effect r s) as [_ [_ H]].
  rewrite H, ensured_footprint, app_assoc. reflexivity.
Qed.

(** No sequence of invocations changes the configuration. *)
Lemma session_keeps_config (rs : list Request) : forall s : State,
  config (session rs s) = config s.
Proof.
  induction rs as [| r rs IH]; intro s; cbn [session]; [reflexivity |].
  rewrite IH. exact (proj1 (proj2 (serve_effect r s))).
Qed.

(** X2. Once the handle exists, no sequence of invocations replaces or
    clears it, and the constructor is never called again. *)
Theorem session_keeps_handle (rs : list Request) : forall (s : State) c,
  memu_client s = Some c ->
  memu_client (session rs s) = Some c
  /\ filter Memu.is_construct (calls (session rs s))
     = filter Memu.is_construct (calls s).
Proof.
  intros s c Hc.
  destruct (session_connected rs s c Hc) as [H1 [ops [H2 [H3 _]]]].
  split; [exact H1 |].
  rewrite H2, filter_app, H3. apply app_nil_r.
Qed.

End Entry_points.

(** ** Sessions *)

Section Sessions.

Context {sdk : Memu.SDK}.

Lemma lifecycle_calls_not_memorize (s : State) :
  filter is_memorize (lifecycle_calls s) = [].
Proof.
  unfold lifecycle_calls.
  destruct (not_client (memu_client s) && negb (not_str (MEMU_API_KEY (config s))));
    reflexivity.
Qed.

Lemma read_calls_not_memorize (r : Request) (s1 : State) :
  is_write r = false -> filter is_memorize (operation_calls r s1) = [].
Proof.
  destruct r; cbn [is_write operation_calls]; intro H; try discriminate;
    match goal with |- context [if ?b then _ else _] => destruct b end;
    reflexivity.
Qed.

(** X3. The hook and the recall tool never write: a sequence of
    invocations without a memorize request submits nothing to the
    service. *)
Theorem reads_never_submit (rs : list Request) : forall s : State,
  forallb (fun r => negb (is_write r)) rs = true ->
  filter is_memorize (calls (session rs s)) = filter is_memorize (calls s).
Proof.
  induction rs as [| r rs IH]; intros s H; cbn [session]; [reflexivity |].
  cbn [forallb] in H. apply andb_true_iff in H. destruct H as [Hr Hrs].
  apply negb_true_iff in Hr.
  destruct (serve_effect r s) as [_ [_ Hcalls]].
  rewrite (IH _ Hrs), Hcalls, ensured_footprint, !filter_app,
    lifecycle_calls_not_memorize, (read_calls_not_memorize r _ Hr).
  now rewrite !app_nil_r.
Qed.

(** X4. With the handle present, every memorize request of a sequence of
    invocations is submitted exactly once, whether the service accepts it
    or raises: nothing is dropped, retried or duplicated. *)
Theorem one_submission_per_memorize (rs : list Request) : forall (s : State) c,
  memu_client s = Some c ->
  length (filter is_memorize (calls (session rs s)))
  = length (filter is_memorize (calls s)) + length (filter is_write rs).
Proof.
  intros s c Hc.
  destruct (session_connected rs s c Hc) as [_ [ops [H2 [_ H4]]]].
  now rewrite H2, filter_app, length_app, H4.
Qed.

Lemma ensured_no_key_eq (s : State) :
  memu_client s = None -> MEMU_API_KEY (config s) = "" ->
  ensured s = logged s key_missing_record.
Proof.
  intros Hc Hk. unfold ensured, logged.
  rewrite initialize_run, Hc, Hk. reflexivity.
Qed.

(** X5. Without an API key and without a handle, no sequence of
    invocations contacts the service: no SDK call is made, the world is
    untouched, the handle stays absent, and every invocation logs the
    missing-key error once. *)
Theorem no_key_no_contact (rs : list Request) : forall s : State,
  memu_client s = None ->
  MEMU_API_KEY (config s) = "" ->
  memu_client (session rs s) = None
  /\ calls (session rs s) = calls s
  /\ world (session rs s) = world s
  /\ log (session rs s)
     = (log s ++ repeat key_missing_record (length rs))%list.
Proof.
  induction rs as [| r rs IH]; intros s Hc Hk; cbn [session length repeat].
  - rewrite app_nil_r. auto.
  - pose proof (ensured_no_key_eq s Hc Hk) as He.
    assert (Hs : fst (serve r s) = logged s key_missing_record).
    { rewrite <- He. apply serve_absent. rewrite He. exact Hc. }
    rewrite Hs.
    destruct (IH (logged s key_missing_record) Hc Hk) as [H1 [H2 [H3 H4]]].
    rewrite H1, H2, H3, H4. cbn [logged calls world log].
    rewrite <- app_assoc. auto.
Qed.

(** X6. While the constructor keeps raising, every invocation attempts the
    construction again, once, and calls nothing else; the handle stays
    absent. *)
Theorem failing_constructor_retries (rs : list Request) : forall s : State,
  (forall w, exists w' e,
      Memu.new (BASE_URL (config s)) (MEMU_API_KEY (config s)) w
      = (w', Raised e)) ->
  memu_client s = None ->
  MEMU_API_KEY (config s) <> "" ->
  memu_client (session rs s) = None
  /\ calls (session rs s)
     = (calls s ++ repeat (construct_call (config s)) (length rs))%list.
Proof.
  induction rs as [| r rs IH]; intros s Hnew Hc Hk; cbn [session length repeat].
  - rewrite app_nil_r. auto.
  - destruct (Hnew (world s)) as [w [e He]].
    assert (Hrun : ensured s
                   = mkState None (config s) w
                       (calls s ++ [construct_call (config s)])%list
                       (log s ++ [starting_record;
                                  mkLog ERROR ("MemUClient 初始化失败: " ++ exc_str e) true])%list).
    { unfold ensured. apply not_str_false in Hk.
      rewrite initialize_run, Hc, Hk, He. reflexivity. }
    assert (Hs : fst (serve r s) = ensured s).
    { apply serve_absent. rewrite Hrun. reflexivity. }
    rewrite Hs, Hrun.
    match goal with
    | |- context [session rs ?s1] =>
        destruct (IH s1 Hnew eq_refl Hk) as [H1 H2]
    end.
    rewrite H1, H2. cbn [config calls]. rewrite <- app_assoc. auto.
Qed.

End Sessions.

(** ** What is logged, what is returned, what is raised *)

Section Observations.

Context {sdk : Memu.SDK}.

(** X7. What the hook logs once it retrieves: a warning with the text of
    the exception when the retrieval raises, an information record with the
    number of memories when some are injected, and nothing when the answer
    holds no memory. *)
Theorem inject_log (_ctx : AgentCtx) (s : State) c w out :
  memu_client (ensured s) = Some c ->
  RECALL_TOP_K (config s) <> 0%Z ->
  message_history _ctx <> [] ->
  Memu.retrieve_related_memory_items c (query_text _ctx)
    (from_chat_key _ctx) (RECALL_TOP_K (config s)) (world (ensured s))
  = (w, out) ->
  log (fst (inject_relevant_memories _ctx s))
  = (log (ensured s)
     ++ match out with
        | Raised e =>
            [mkLog WARNING ("自动检索记忆时出错: " ++ exc_str e) false]
        | Returned r =>
            match items_of r with
            | [] => []
            | _ :: _ =>
                [mkLog INFO
                   ("成功为 User '" ++ channel_name _ctx ++ "' 注入了 "
                    ++ str_of_nat (length (items_of r)) ++ " 条相关记忆。")
                   false]
            end
        end)%list.
Proof.
  intros Hc Hk Hh Hr.
  apply Z.eqb_neq in Hk.
  rewrite inject_full, Hc, Hk, (query_text_nonempty _ctx Hh), Hr.
  destruct out as [r | e]; [destruct (items_of r) |];
    cbn [fst logged called log]; [now rewrite app_nil_r | |]; reflexivity.
Qed.

(** X8. What memorize and recall log once the handle is present.  Memorize
    logs the task id when the service accepts, and an error with the text
    of the exception and its traceback when the service raises.  Recall
    logs such an error when the retrieval raises and nothing otherwise. *)
Theorem operations_log (_ctx : AgentCtx) (s : State) c :
  memu_client (ensured s) = Some c ->
  (forall chat_key conversation agent_id agent_name w out,
      Memu.memorize_conversation c (structured conversation)
        (from_chat_key _ctx) (channel_name _ctx)
        (if_not_None agent_id (AGENT_ID (config s)))
        (if_not_None agent_name (AGENT_NAME (config s)))
        (world (ensured s)) = (w, out) ->
      log (fst (memorize_conversation _ctx chat_key conversation
                  agent_id agent_name s))
      = (log (ensured s)
         ++ [match out with
             | Returned r =>
                 mkLog INFO
                   ("已成功提交记忆任务到 memu.so，Task ID: "
                    ++ task_id r ++ "。") false
             | Raised e =>
                 mkLog ERROR ("调用 memU.so 记忆服务时出错: " ++ exc_str e) true
             end])%list)
  /\ (forall query w out,
         Memu.retrieve_related_memory_items c query (from_chat_key _ctx)
           3%Z (world (ensured s)) = (w, out) ->
         log (fst (recall_memory _ctx query s))
         = (log (ensured s)
            ++ match out with
               | Returned _ => []
               | Raised e =>
                   [mkLog ERROR ("主动检索记忆时出错: " ++ exc_str e) true]
               end)%list).
Proof.
  intro Hc. split.
  - intros chat_key conversation agent_id agent_name w out Hr.
    rewrite memorize_run, Hc. cbv zeta. rewrite Hr.
    destruct out; reflexivity.
  - intros query w out Hr.
    rewrite recall_run, Hc, Hr.
    destruct out; cbn [fst logged called log];
      [now rewrite app_nil_r | reflexivity].
Qed.

(** X9. The hook returns a non-empty text exactly when the handle is
    present, RECALL_TOP_K is not 0, the history is not empty and the
    retrieval answers with at least one memory; the text is then the
    formatted list.  In every other case, failures included, it returns
    the empty text. *)
Theorem inject_nonempty_iff (_ctx : AgentCtx) (s : State) (text : string) :
  text <> "" ->
  (snd (inject_relevant_memories _ctx s) = Returned text
   <-> exists c w r,
         memu_client (ensured s) = Some c
         /\ RECALL_TOP_K (config s) <> 0%Z
         /\ message_history _ctx <> []
         /\ Memu.retrieve_related_memory_items c (query_text _ctx)
              (from_chat_key _ctx) (RECALL_TOP_K (config s))
              (world (ensured s)) = (w, Returned r)
         /\ items_of r <> []
         /\ text = join LF (injection_header :: dashed_lines (items_of r))).
Proof.
  intro Ht. rewrite inject_full.
  assert (Hempty : forall s1 : State,
             snd (s1, Returned "") = Returned text -> False).
  { intros s1 H. cbn [snd] in H. injection H as H. now apply Ht. }
  split.
  - intro H.
    destruct (memu_client (ensured s)) as [c |] eqn:Hc;
      [| now apply Hempty in H].
    destruct (RECALL_TOP_K (config s) =? 0)%Z eqn:Hk;
      [now apply Hempty in H |].
    destruct (not_str (query_text _ctx)) eqn:Hq; [now apply Hempty in H |].
    destruct (Memu.retrieve_related_memory_items _ _ _ _ _)
      as [w [r | e]] eqn:Hr; [| now apply Hempty in H].
    destruct (items_of r) as [| i l] eqn:Hi; [now apply Hempty in H |].
    exists c, w, r. rewrite Hi.
    split; [reflexivity |].
    split; [now apply Z.eqb_neq |].
    split.
    { intro E. apply query_text_empty in E. apply not_str_false in Hq.
      exact (Hq E). }
    split; [exact Hr |].
    split; [discriminate |].
    cbn [snd] in H. rewrite prompt_lines_eq in H. now inversion H.
  - intros [c [w [r [Hc [Hk [Hh [Hr [Hi E]]]]]]]].
    apply Z.eqb_neq in Hk.
    rewrite Hc, Hk, (query_text_nonempty _ctx Hh), Hr.
    destruct (items_of r) as [| i l] eqn:Hl; [now elim Hi |].
    cbn [snd]. now rewrite prompt_lines_eq, E.
Qed.


End Observations.

(** ** What the entry points depend on *)

Section Dependencies.

Context {sdk : Memu.SDK}.

Lemma last_n_app {A : Type} (n : nat) (older recent : list A) :
  n <= length recent -> last_n n (older ++ recent)%list = last_n n recent.
Proof.
  intro H. unfold last_n. rewrite length_app, skipn_app.
  rewrite skipn_all2 by lia.
  replace (length older + length recent - n - length older)
    with (length recent - n) by lia.
  reflexivity.
Qed.

(** X11. Messages older than the last four never reach the service and
    never change what the hook does: two histories that end in the same
    four or more messages give the same run of the hook. *)
Theorem older_history_is_ignored (_ctx : AgentCtx)
    (older1 older2 recent : list ChatMessage.t) (s : State) :
  4 <= length recent ->
  inject_relevant_memories (with_history _ctx (older1 ++ recent)%list) s
  = inject_relevant_memories (with_history _ctx (older2 ++ recent)%list) s.
Proof.
  intro H.
  assert (Hq : query_text (with_history _ctx (older1 ++ recent)%list)
               = query_text (with_history _ctx (older2 ++ recent)%list)).
  { unfold query_text. cbn [message_history with_history].
    now rewrite !last_n_app. }
  rewrite !inject_full. unfold inject_retrieval, injected_record.
  cbn [from_chat_key channel_name with_history]. rewrite Hq. reflexivity.
Qed.


(** X12. The settings are read at the time of use, the key and the base URL
    only to build the handle.  Once the handle exists, replacing the
    configuration does not change recall at all, changes memorize only
    through AGENT_ID and AGENT_NAME, and the hook only through
    RECALL_TOP_K: an emptied or changed API key keeps being served by the
    handle built earlier. *)
Theorem settings_after_construction (s : State) c (cfg : MemUConfig) :
  memu_client s = Some c ->
  (forall _ctx query,
      recall_memory _ctx query (with_config s cfg)
      = (with_config (fst (recall_memory _ctx query s)) cfg,
         snd (recall_memory _ctx query s)))
  /\ (AGENT_ID cfg = AGENT_ID (config s) ->
      AGENT_NAME cfg = AGENT_NAME (config s) ->
      forall _ctx chat_key conversation agent_id agent_name,
        memorize_conversation _ctx chat_key conversation agent_id agent_name
          (with_config s cfg)
        = (with_config
             (fst (memorize_conversation _ctx chat_key conversation
                     agent_id agent_name s)) cfg,
           snd (memorize_conversation _ctx chat_key conversation
                  agent_id agent_name s)))
  /\ (RECALL_TOP_K cfg = RECALL_TOP_K (config s) ->
      forall _ctx,
        inject_relevant_memories _ctx (with_config s cfg)
        = (with_config (fst (inject_relevant_memories _ctx s)) cfg,
           snd (inject_relevant_memories _ctx s))).
Proof.
  intro Hc.
  assert (Hc' : memu_client (with_config s cfg) = Some c) by exact Hc.
  pose proof (ensured_present s c Hc) as He.
  pose proof (ensured_present _ c Hc') as He'.
  split; [| split].
  - intros _ctx query. rewrite !recall_run, He, He', Hc', Hc.
    cbn [world with_config].
    destruct (Memu.retrieve_related_memory_items _ _ _ _ _) as [w [r | e]];
      reflexivity.
  - intros Hid Hname _ctx chat_key conversation agent_id agent_name.
    rewrite !memorize_run, He, He', Hc', Hc. cbv zeta.
    unfold memorize_call. cbn [world config with_config].
    rewrite Hid, Hname.
    destruct (Memu.memorize_conversation _ _ _ _ _ _ _) as [w [r | e]];
      reflexivity.
  - intros Hk _ctx. rewrite !inject_full, He, He', Hc', Hc.
    unfold inject_retrieval. cbn [world config with_config]. rewrite Hk.
    destruct (RECALL_TOP_K (config s) =? 0)%Z; [reflexivity |].
    destruct (not_str (query_text _ctx)); [reflexivity |].
    destruct (Memu.retrieve_related_memory_items _ _ _ _ _) as [w [r | e]];
      [destruct (items_of r) |]; reflexivity.
Qed.


End Dependencies.

Section First_use.

Context {sdk : Memu.SDK}.

(** X14. First use builds the handle, whichever entry point comes first:
    from an absent handle, with a key and a constructor that succeeds, any
    non-empty sequence of invocations calls the constructor exactly once
    and ends with the handle it returned. *)
Theorem session_constructs_once (r : Request) (rs : list Request)
    (s : State) c w :
  memu_client s = None ->
  MEMU_API_KEY (config s) <> "" ->
  Memu.new (BASE_URL (config s)) (MEMU_API_KEY (config s)) (world s)
  = (w, Returned c) ->
  memu_client (session (r :: rs) s) = Some c
  /\ constructions (session (r :: rs) s) = S (constructions s).
Proof.
  intros Hc Hk Hnew. cbn [session].
  assert (He : memu_client (ensured s) = Some c
               /\ calls (ensured s) = (calls s ++ [construct_call (config s)])%list).
  { unfold ensured. apply not_str_false in Hk.
    rewrite initialize_run, Hc, Hk, Hnew. split; reflexivity. }
  destruct He as [He1 He2].
  destruct (serve_effect r s) as [Hm [_ Hcalls]].
  rewrite He1 in Hm.
  destruct (session_connected rs _ c Hm) as [H1 [ops [H2 [H3 _]]]].
  split; [exact H1 |].
  unfold constructions.
  rewrite H2, Hcalls, He2, !filter_app, operation_calls_not_construct, H3,
    !app_nil_r, length_app.
  cbn. lia.
Qed.

End First_use.

(** ** Further runs on the in-memory services *)

(** X2 on a hook, a memorize and a recall against a built handle. *)
Lemma session_keeps_handle_witness :
  let s := Demo.connected "sk-live" 3 Demo.remembered in
  let rs := [PromptInject Demo.ctx;
             Memorize Demo.ctx "session_123" "likes tea" None None;
             Recall Demo.ctx "tea?"] in
  memu_client (session rs s) = Some ("https://api.memu.so", "sk-live")
  /\ filter Memu.is_construct (calls (session rs s)) = [].
Proof.
  intros s rs.
  exact (session_keeps_handle (sdk := Demo.sdk) rs s
           ("https://api.memu.so", "sk-live") eq_refl).
Defined.

(** X3 on a hook and a recall from a fresh module. *)
Lemma reads_never_submit_witness :
  let s := Demo.fresh "sk-live" 3 Demo.remembered in
  let rs := [PromptInject Demo.ctx; Recall Demo.ctx "tea?"] in
  filter is_memorize (calls (session rs s)) = [].
Proof.
  intros s rs.
  exact (reads_never_submit (sdk := Demo.sdk) rs s eq_refl).
Defined.

(** X4 with two memorize requests, the first against a service that is
    down. *)
Lemma one_submission_per_memorize_witness :
  let s := Demo.connected "sk-live" 3 (Demo.mkWorld 1 []) in
  let rs := [Memorize Demo.ctx "session_123" "likes tea" None None;
             PromptInject Demo.ctx;
             Memorize Demo.ctx "session_123" "likes tea" None None] in
  snd (serve (List.hd (Recall Demo.ctx "") rs) s)
  = Raised (memorize_failure Demo.unreachable)
  /\ length (filter is_memorize (calls (session rs s))) = 2.
Proof.
  intros s rs. split; [reflexivity |].
  exact (one_submission_per_memorize (sdk := Demo.sdk) rs s
           ("https://api.memu.so", "sk-live") eq_refl).
Defined.

(** X5 on three invocations without a key. *)
Lemma no_key_no_contact_witness :
  let s := Demo.fresh "" 3 Demo.remembered in
  let rs := [PromptInject Demo.ctx;
             Memorize Demo.ctx "session_123" "likes tea" None None;
             Recall Demo.ctx "tea?"] in
  calls (session rs s) = []
  /\ world (session rs s) = Demo.remembered
  /\ log (session rs s)
     = [key_missing_record; key_missing_record; key_missing_record].
Proof.
  intros s rs.
  destruct (no_key_no_contact (sdk := Demo.sdk) rs s eq_refl eq_refl)
    as [_ [H2 [H3 H4]]].
  split; [exact H2 | split; [exact H3 | exact H4]].
Defined.

(** X6 on three invocations against the service that refuses every call. *)
Lemma failing_constructor_retries_witness :
  let s := Offline.fresh "sk-live" in
  let rs := [PromptInject Demo.ctx;
             Memorize Demo.ctx "session_123" "likes tea" None None;
             Recall Demo.ctx "tea?"] in
  memu_client (session rs s) = None
  /\ calls (session rs s)
     = [Memu.Construct "https://api.memu.so" "sk-live";
        Memu.Construct "https://api.memu.so" "sk-live";
        Memu.Construct "https://api.memu.so" "sk-live"].
Proof.
  intros s rs.
  refine (failing_constructor_retries (sdk := Offline.sdk) rs s _ eq_refl _).
  - intro w. exists w, Offline.refused. reflexivity.
  - discriminate.
Defined.

(** X7 on the two memories of the service. *)
Lemma inject_log_witness :
  let s := Demo.connected "sk-live" 3 Demo.remembered in
  log (fst (inject_relevant_memories Demo.ctx s))
  = [mkLog INFO "成功为 User 'Tea Room' 注入了 2 条相关记忆。" false].
Proof.
  intro s.
  refine (inject_log (sdk := Demo.sdk) Demo.ctx s
            ("https://api.memu.so", "sk-live") Demo.remembered
            (Returned (Some (mkRetrieved
                               [mkRelated (mkMemory "likes blue");
                                mkRelated (mkMemory "dislikes coffee")])))
            eq_refl _ _ eq_refl); discriminate.
Defined.

(** X8 on a memorize and a recall against a service that is down. *)
Lemma operations_log_witness :
  let s := Demo.connected "sk-live" 3 (Demo.mkWorld 1 []) in
  log (fst (memorize_conversation Demo.ctx "session_123" "likes tea"
              None None s))
  = [mkLog ERROR "调用 memU.so 记忆服务时出错: memu.so did not answer" true]
  /\ log (fst (recall_memory Demo.ctx "tea?" s))
     = [mkLog ERROR "主动检索记忆时出错: memu.so did not answer" true].
Proof.
  intro s.
  destruct (operations_log (sdk := Demo.sdk) Demo.ctx s
              ("https://api.memu.so", "sk-live") eq_refl) as [Hm Hr].
  split.
  - exact (Hm "session_123" "likes tea" None None (Demo.mkWorld 0 [])
              (Raised Demo.unreachable) eq_refl).
  - exact (Hr "tea?" (Demo.mkWorld 0 []) (Raised Demo.unreachable) eq_refl).
Defined.

(** X9 on the two memories of the service. *)
Lemma inject_nonempty_iff_witness :
  let s := Demo.connected "sk-live" 3 Demo.remembered in
  let text := join LF ["--- Relevant Memories Retrieved From Your Past ---";
                       "- likes blue"; "- dislikes coffee"] in
  text <> ""
  /\ exists c w r,
       memu_client (ensured s) = Some c
       /\ RECALL_TOP_K (config s) <> 0%Z
       /\ message_history Demo.ctx <> []
       /\ Memu.retrieve_related_memory_items c (query_text Demo.ctx)
            (from_chat_key Demo.ctx) (RECALL_TOP_K (config s))
            (world (ensured s)) = (w, Returned r)
       /\ items_of r <> []
       /\ text = join LF (injection_header :: dashed_lines (items_of r)).
Proof.
  intros s text.
  assert (Ht : text <> "") by discriminate.
  split; [exact Ht |].
  exact (proj1 (inject_nonempty_iff (sdk := Demo.sdk) Demo.ctx s text Ht)
           eq_refl).
Defined.


(** X11 with one older message on one side and three on the other. *)
Lemma older_history_is_ignored_witness :
  let s := Demo.connected "sk-live" 3 Demo.remembered in
  let recent := [ChatMessage.mk "assistant" "hi, how can I help?";
                 ChatMessage.mk "user" "what is my favourite colour?";
                 ChatMessage.mk "assistant" "let me think";
                 ChatMessage.mk "user" "please recall it"] in
  let older1 := [ChatMessage.mk "user" "hello"] in
  let older2 := [ChatMessage.mk "user" "my card number is 1234";
                 ChatMessage.mk "assistant" "noted";
                 ChatMessage.mk "user" "forget it"] in
  4 <= length recent
  /\ inject_relevant_memories (with_history Demo.ctx (older1 ++ recent)%list) s
     = inject_relevant_memories (with_history Demo.ctx (older2 ++ recent)%list) s.
Proof.
  intros s recent older1 older2.
  assert (H : 4 <= length recent) by (cbn; lia).
  split; [exact H |].
  exact (older_history_is_ignored (sdk := Demo.sdk) Demo.ctx older1 older2
           recent s H).
Defined.

(** X12: the key is emptied and RECALL_TOP_K set to 0 after the handle was
    built; recall answers as before. *)
Lemma settings_after_construction_witness :
  let s := Demo.connected "sk-live" 3 Demo.remembered in
  let cfg := Demo.cfg "" 0 in
  snd (recall_memory Demo.ctx "tea?" (with_config s cfg))
  = Returned (lead_in_sentence ++ LF
              ++ "1. likes blue" ++ LF ++ "2. dislikes coffee" ++ LF).
Proof.
  intros s cfg.
  exact (f_equal snd
           (proj1 (settings_after_construction (sdk := Demo.sdk) s
                     ("https://api.memu.so", "sk-live") cfg eq_refl)
              Demo.ctx "tea?")).
Defined.


(** X14 with a recall as the first use. *)
Lemma session_constructs_once_witness :
  let s := Demo.fresh "sk-live" 3 Demo.remembered in
  let rs := [Recall Demo.ctx "tea?"; PromptInject Demo.ctx;
             Memorize Demo.ctx "session_123" "likes tea" None None] in
  memu_client (session rs s) = Some ("https://api.memu.so", "sk-live")
  /\ constructions (session rs s) = 1.
Proof.
  intros s rs.
  refine (session_constructs_once (sdk := Demo.sdk)
            (Recall Demo.ctx "tea?")
            [PromptInject Demo.ctx;
             Memorize Demo.ctx "session_123" "likes tea" None None]
            s ("https://api.memu.so", "sk-live") Demo.remembered
            eq_refl _ eq_refl).
  discriminate.
Defined.
